(** * Credential authentication, session callbacks and route protection

    A shallow embedding of the NextAuth.js configuration, the sign-in form
    and the route-protection code of the dashboard starter, together with
    the properties of the authentication core that hold of that code.

    JavaScript objects that are extended field by field (the JWT [token],
    [session.user]) are finite maps from property names to values;
    functions that [throw] return an [outcome]; callbacks that assign to
    their arguments are state transformers over the objects they receive. *)

From Stdlib Require Import String Ascii ZArith List Bool Lia.
From stdpp Require Import base option gmap strings.

Local Open Scope string_scope.
Local Open Scope Z_scope.

(** ** JavaScript values and objects *)

Inductive jsval : Type :=
  | JUndefined
  | JNull
  | JString (s : string)
  | JNumber (n : Z).

#[global] Instance jsval_eq_dec : EqDecision jsval.
Proof. solve_decision. Defined.

(** A plain object: property name to value. *)
Abbreviation jsobj := (gmap string jsval).

(** [o.k]: reading a property that is not there gives [undefined]. *)
Definition prop (o : jsobj) (k : string) : jsval := default JUndefined (o !! k).

(** [o.k = v] *)
Definition assign (k : string) (v : jsval) (o : jsobj) : jsobj := <[k := v]> o.

(** A possibly missing string as a JavaScript value. *)
Definition js_of (o : option string) : jsval :=
  match o with Some s => JString s | None => JUndefined end.

(** JavaScript truthiness of the values the code tests. *)
Definition truthy_string (s : string) : bool := negb (String.eqb s "").

Definition truthy_opt (o : option string) : bool :=
  match o with Some s => truthy_string s | None => false end.

(** [===] on values. *)
Definition strict_eq (v w : jsval) : bool := bool_decide (v = w).

(** [s.startsWith(p)] *)
Definition startsWith (s p : string) : bool := String.prefix p s.

(** Result of a function that may [throw new Error(msg)]. *)
Inductive outcome (A : Type) : Type :=
  | Returned (a : A)
  | Thrown (msg : string).
Arguments Returned {A} a.
Arguments Thrown {A} msg.

(** ** The user table (prisma/schema.prisma) *)

Inductive UserRole : Type := ADMIN | USER | MODERATOR.
Inductive UserStatus : Type := ACTIVE | INACTIVE | PENDING | SUSPENDED.

#[global] Instance UserRole_eq_dec : EqDecision UserRole.
Proof. solve_decision. Defined.
#[global] Instance UserStatus_eq_dec : EqDecision UserStatus.
Proof. solve_decision. Defined.

(** Prisma enum members are their own names at run time. *)
Definition UserRole_name (r : UserRole) : string :=
  match r with ADMIN => "ADMIN" | USER => "USER" | MODERATOR => "MODERATOR" end.

Definition UserStatus_name (s : UserStatus) : string :=
  match s with
  | ACTIVE => "ACTIVE" | INACTIVE => "INACTIVE"
  | PENDING => "PENDING" | SUSPENDED => "SUSPENDED"
  end.

(** The columns of [User] that the authentication code reads. *)
Record User : Type := mkUser {
  user_id : string;
  user_email : string;
  user_name : option string;
  user_image : option string;
  user_password : option string;
  user_role : UserRole;
  user_status : UserStatus
}.

(** [prisma.user.findUnique({ where: { email } })] over the table. *)
Definition findUnique (db : list User) (email : string) : option User :=
  List.find (fun u => String.eqb (user_email u) email) db.

(** The [credentials] argument of [authorize]: either field may be missing. *)
Record Credentials : Type := mkCredentials {
  cred_email : option string;
  cred_password : option string
}.

(** The object [authorize] returns; the basic configuration leaves [role]
    and [status] out. *)
Record AuthUser : Type := mkAuthUser {
  au_id : string;
  au_email : string;
  au_name : option string;
  au_image : option string;
  au_role : option UserRole;
  au_status : option UserStatus
}.

(** ** [authorize] of the credentials provider *)

Section Authorize.

(** [bcrypt.compare(plaintext, hash)] *)
Variable compare : string -> string -> bool.
Variable db : list User.

(** Basic setup: every failure is [null]. *)
Definition authorize_basic (credentials : option Credentials) : option AuthUser :=
  let email := credentials ≫= cred_email in
  let password := credentials ≫= cred_password in
  if negb (truthy_opt email) || negb (truthy_opt password) then None
  else
    match findUnique db (default "" email) with
    | None => None
    | Some user =>
        if negb (truthy_opt (user_password user)) then None
        else
          let isPasswordValid :=
            compare (default "" password) (default "" (user_password user)) in
          if negb isPasswordValid then None
          else Some {| au_id := user_id user;
                       au_email := user_email user;
                       au_name := user_name user;
                       au_image := user_image user;
                       au_role := None;
                       au_status := None |}
    end.

(** Advanced setup: failures throw, and the account status is looked at
    once the password has been accepted. *)
Definition authorize_advanced (credentials : option Credentials) : outcome AuthUser :=
  let email := credentials ≫= cred_email in
  let password := credentials ≫= cred_password in
  if negb (truthy_opt email) || negb (truthy_opt password)
  then Thrown "Email and password are required"
  else
    let user := findUnique db (default "" email) in
    if negb (bool_decide (is_Some user))
       || negb (truthy_opt (user ≫= user_password))
    then Thrown "Invalid credentials"
    else
      match user with
      | None => Thrown "Invalid credentials"
      | Some user =>
          let isPasswordValid :=
            compare (default "" password) (default "" (user_password user)) in
          if negb isPasswordValid then Thrown "Invalid credentials"
          else if bool_decide (user_status user = SUSPENDED)
          then Thrown "Account is suspended"
          else if bool_decide (user_status user = PENDING)
          then Thrown "Account is pending verification"
          else Returned {| au_id := user_id user;
                           au_email := user_email user;
                           au_name := user_name user;
                           au_image := user_image user;
                           au_role := Some (user_role user);
                           au_status := Some (user_status user) |}
      end.

End Authorize.

(** ** Callbacks as state transformers

    A callback assigns to the objects it is handed. [M S A] is a
    computation over the mutable objects [S] that returns an [A] or throws. *)

Definition M (S A : Type) : Type := S -> outcome A * S.

#[global] Instance M_ret {S} : MRet (M S) := fun A a s => (Returned a, s).

#[global] Instance M_bind {S} : MBind (M S) := fun A B f m s =>
  match m s with
  | (Returned a, s') => f a s'
  | (Thrown msg, s') => (Thrown msg, s')
  end.

Definition get {S} : M S S := fun s => (Returned s, s).
Definition modify {S} (f : S -> S) : M S unit := fun s => (Returned tt, f s).
Definition throw {S A} (msg : string) : M S A := fun s => (Thrown msg, s).

(** [try { body } catch (error) { handler }] *)
Definition try_catch {S A} (body : M S A) (handler : M S A) : M S A := fun s =>
  match body s with
  | (Returned a, s') => (Returned a, s')
  | (Thrown _, s') => handler s'
  end.

(** [if (c) { body }] without an else branch. *)
Definition when {S} (c : bool) (body : M S unit) : M S unit :=
  if c then body else mret tt.

(** The value a computation returns, if it returns. *)
Definition returned {A} (o : outcome A) : option A :=
  match o with Returned a => Some a | Thrown _ => None end.

(** The OAuth account handed to the [jwt] callback at sign-in. *)
Record Account : Type := mkAccount {
  access_token : option string;
  refresh_token : option string;
  provider : string
}.

(** The session object: [session.user] and the session's own properties
    ([expires], and what the callback adds). *)
Record Session : Type := mkSession {
  sess_user : option jsobj;
  sess_own : jsobj
}.

(** What the [session] callback receives: [{ session, token }]. *)
Record SessionParams : Type := mkSessionParams {
  sp_session : Session;
  sp_token : option jsobj
}.

Definition role_value (u : AuthUser) : jsval := js_of (UserRole_name <$> au_role u).
Definition status_value (u : AuthUser) : jsval := js_of (UserStatus_name <$> au_status u).

(** [session.user.k = v]; a [TypeError] when [session.user] is undefined. *)
Definition set_session_user (k : string) (v : jsval) : M SessionParams unit := fun p =>
  match sess_user (sp_session p) with
  | Some u =>
      (Returned tt,
       {| sp_session := {| sess_user := Some (assign k v u);
                           sess_own := sess_own (sp_session p) |};
          sp_token := sp_token p |})
  | None => throw "TypeError: Cannot set properties of undefined" p
  end.

(** [session.k = v] *)
Definition set_session_own (k : string) (v : jsval) : M SessionParams unit :=
  modify (fun p =>
    {| sp_session := {| sess_user := sess_user (sp_session p);
                        sess_own := assign k v (sess_own (sp_session p)) |};
       sp_token := sp_token p |}).

Module BasicConfig.

(** [callbacks.jwt]: the state is the [token] object. *)
Definition jwt (user : option AuthUser) : M jsobj jsobj :=
  match user with
  | Some user => modify (assign "id" (JString (au_id user)))
  | None => mret tt
  end ;;
  get.

(** [callbacks.session] *)
Definition session : M SessionParams Session :=
  p ← get;
  match sp_token p, sess_user (sp_session p) with
  | Some token, Some _ => set_session_user "id" (prop token "id")
  | _, _ => mret tt
  end ;;
  p ← get; mret (sp_session p).

End BasicConfig.

Module AdvancedConfig.

(** [authOptions.session] *)
Definition session_strategy : string := "jwt".
Definition session_maxAge : Z := 30 * 24 * 60 * 60.
Definition session_updateAge : Z := 24 * 60 * 60.

(** With the JWT strategy [maxAge] is the lifetime of the token: one
    issued at [issuedAt] (in seconds) expires [maxAge] seconds later. *)
Definition token_expiresAt (issuedAt : Z) : Z := issuedAt + session_maxAge.

(** [callbacks.jwt] *)
Definition jwt (user : option AuthUser) (account : option Account) : M jsobj jsobj :=
  match user with
  | Some user =>
      modify (assign "id" (JString (au_id user))) ;;
      modify (assign "role" (role_value user)) ;;
      modify (assign "status" (status_value user))
  | None => mret tt
  end ;;
  match account with
  | Some account =>
      modify (assign "accessToken" (js_of (access_token account))) ;;
      modify (assign "refreshToken" (js_of (refresh_token account))) ;;
      modify (assign "provider" (JString (provider account)))
  | None => mret tt
  end ;;
  get.

(** [callbacks.session] *)
Definition session : M SessionParams Session :=
  p ← get;
  match sp_token p with
  | Some token =>
      set_session_user "id" (prop token "id") ;;
      set_session_user "role" (prop token "role") ;;
      set_session_user "status" (prop token "status") ;;
      set_session_own "accessToken" (prop token "accessToken") ;;
      set_session_own "refreshToken" (prop token "refreshToken") ;;
      set_session_own "provider" (prop token "provider")
  | None => mret tt
  end ;;
  p ← get; mret (sp_session p).

End AdvancedConfig.

(** ** The sign-in form (features/auth/components/sign-in-form.tsx) *)

(** What [signIn(..., { redirect: false })] resolves to. *)
Record SignInResponse : Type := mkSignInResponse {
  resp_error : option string;
  resp_status : Z;
  resp_ok : bool;
  resp_url : option string
}.

(** The component's state and what it asked of the router. *)
Record FormState : Type := mkFormState {
  fs_email : string;
  fs_password : string;
  fs_isLoading : bool;
  fs_error : string;
  fs_pushed : list string;
  fs_refreshed : nat
}.

Definition setIsLoading (b : bool) : M FormState unit :=
  modify (fun st => {| fs_email := fs_email st; fs_password := fs_password st;
                       fs_isLoading := b; fs_error := fs_error st;
                       fs_pushed := fs_pushed st; fs_refreshed := fs_refreshed st |}).

Definition setError (msg : string) : M FormState unit :=
  modify (fun st => {| fs_email := fs_email st; fs_password := fs_password st;
                       fs_isLoading := fs_isLoading st; fs_error := msg;
                       fs_pushed := fs_pushed st; fs_refreshed := fs_refreshed st |}).

Definition router_push (path : string) : M FormState unit :=
  modify (fun st => {| fs_email := fs_email st; fs_password := fs_password st;
                       fs_isLoading := fs_isLoading st; fs_error := fs_error st;
                       fs_pushed := (fs_pushed st ++ [path])%list;
                       fs_refreshed := fs_refreshed st |}).

Definition router_refresh : M FormState unit :=
  modify (fun st => {| fs_email := fs_email st; fs_password := fs_password st;
                       fs_isLoading := fs_isLoading st; fs_error := fs_error st;
                       fs_pushed := fs_pushed st;
                       fs_refreshed := S (fs_refreshed st) |}).

(** [await p] for a promise that resolves ([Returned]) or rejects ([Thrown]). *)
Definition await {S A} (p : outcome A) : M S A := fun s => (p, s).

Section SignInForm.

(** [signIn('credentials', { email, password, redirect: false })] *)
Variable signIn : string -> string -> outcome (option SignInResponse).
(** [getSession()] *)
Variable getSession : outcome (option Session).

Definition handleSubmit : M FormState unit :=
  setIsLoading true ;;
  setError "" ;;
  try_catch
    (st ← get;
     result ← await (signIn (fs_email st) (fs_password st));
     if truthy_opt (result ≫= resp_error)
     then setError "Invalid email or password"
     else
       session ← await getSession;
       when (bool_decide (is_Some session))
         (router_push "/dashboard/overview" ;; router_refresh))
    (setError "An error occurred. Please try again." ;;
     setIsLoading false).

End SignInForm.

(** The form after a submission that [signIn] answered with an error. *)
Definition rejected_form (st : FormState) : FormState :=
  {| fs_email := fs_email st; fs_password := fs_password st;
     fs_isLoading := true; fs_error := "Invalid email or password";
     fs_pushed := fs_pushed st; fs_refreshed := fs_refreshed st |}.

(** How the credentials flow reports [authorize] to the client when
    [redirect: false]: a user signs in, [null] is the error code
    [CredentialsSignin], and a thrown [Error] comes back as its message. *)
Definition credentials_response (o : outcome (option AuthUser)) : SignInResponse :=
  match o with
  | Returned (Some _) =>
      {| resp_error := None; resp_status := 200; resp_ok := true; resp_url := None |}
  | Returned None =>
      {| resp_error := Some "CredentialsSignin"; resp_status := 401;
         resp_ok := false; resp_url := None |}
  | Thrown msg =>
      {| resp_error := Some msg; resp_status := 401; resp_ok := false; resp_url := None |}
  end.

Definition credentials_of (email password : string) : option Credentials :=
  Some {| cred_email := Some email; cred_password := Some password |}.

(** [signIn] against the basic and the advanced [authorize]. *)
Definition signIn_basic (compare : string -> string -> bool) (db : list User)
    (email password : string) : outcome (option SignInResponse) :=
  Returned (Some (credentials_response
    (Returned (authorize_basic compare db (credentials_of email password))))).

Definition signIn_advanced (compare : string -> string -> bool) (db : list User)
    (email password : string) : outcome (option SignInResponse) :=
  Returned (Some (credentials_response
    (match authorize_advanced compare db (credentials_of email password) with
     | Returned u => Returned (Some u)
     | Thrown msg => Thrown msg
     end))).

(** ASCII lower-casing, to compare messages up to capitalisation. *)
Definition lower_ascii (c : ascii) : ascii :=
  let n := nat_of_ascii c in
  if (Nat.leb 65 n && Nat.leb n 90)%bool then ascii_of_nat (n + 32) else c.

Fixpoint lower (s : string) : string :=
  match s with
  | EmptyString => EmptyString
  | String c s' => String (lower_ascii c) (lower s')
  end.

(** ** Route protection *)

(** What the gates read of a request: [req.nextUrl.pathname] and the
    decoded token ([null] when the request carries none). *)
Record NextRequest : Type := mkRequest {
  req_pathname : string;
  req_token : option jsobj
}.

Inductive NextResponse : Type :=
  | Redirect (path : string) (searchParams : list (string * string))
  | Json (error : string) (status : Z)
  | Next.

(** [!!token] *)
Definition has_token (req : NextRequest) : bool := bool_decide (is_Some (req_token req)).

(** [token?.role], [undefined] without a token. *)
Definition token_role (req : NextRequest) : jsval :=
  match req_token req with Some token => prop token "role" | None => JUndefined end.

(** [withAuth(middleware, { callbacks: { authorized } })]: the wrapped
    function runs only when [authorized] says so; otherwise the request is
    redirected to the sign-in page, written here as the application's
    /auth/sign-in. *)
Definition withAuth (middleware : NextRequest -> NextResponse)
    (authorized : NextRequest -> bool) (req : NextRequest) : NextResponse :=
  if authorized req then middleware req
  else Redirect "/auth/sign-in" [("callbackUrl", req_pathname req)].

(** The middleware guide (src/middleware.ts, advanced version). *)
Module Middleware.

Definition middleware (req : NextRequest) : NextResponse :=
  let pathname := req_pathname req in
  if has_token req && startsWith pathname "/auth"
  then Redirect "/dashboard" []
  else if negb (has_token req) && startsWith pathname "/dashboard"
  then Redirect "/auth/sign-in" [("callbackUrl", pathname)]
  else if startsWith pathname "/dashboard/admin"
          && (negb (has_token req) || negb (strict_eq (token_role req) (JString "admin")))
  then Redirect "/dashboard" []
  else if startsWith pathname "/api/protected" && negb (has_token req)
  then Json "Unauthorized" 401
  else Next.

Definition authorized (req : NextRequest) : bool :=
  let pathname := req_pathname req in
  if startsWith pathname "/auth" || String.eqb pathname "/" then true
  else if startsWith pathname "/dashboard" || startsWith pathname "/api/protected"
  then has_token req
  else true.

(** The exported middleware. *)
Definition gate : NextRequest -> NextResponse := withAuth middleware authorized.

End Middleware.

(** The authentication guide's middleware.ts: only the [authorized]
    callback decides. *)
Module AuthGuide.

Definition authorized (req : NextRequest) : bool :=
  let pathname := req_pathname req in
  if startsWith pathname "/dashboard" then has_token req
  else if startsWith pathname "/admin" then strict_eq (token_role req) (JString "ADMIN")
  else true.

End AuthGuide.

(** components/auth/protected-route.tsx *)
Inductive SessionStatus : Type := loading | authenticated | unauthenticated.

#[global] Instance SessionStatus_eq_dec : EqDecision SessionStatus.
Proof. solve_decision. Defined.

Inductive Rendered : Type := Fallback | RenderNull | Children.

(** [session.user.k], a [TypeError] when [session.user] is undefined. *)
Definition session_user_prop (k : string) (s : Session) : outcome jsval :=
  match sess_user s with
  | Some u => Returned (prop u k)
  | None => Thrown "TypeError: Cannot read properties of undefined"
  end.

Definition session_user_role : Session -> outcome jsval := session_user_prop "role".

(** [requiredRole && session.user.role !== requiredRole] *)
Definition role_mismatch (requiredRole : option string) (s : Session) : outcome bool :=
  if truthy_opt requiredRole then
    match session_user_role s with
    | Returned r => Returned (negb (strict_eq r (js_of requiredRole)))
    | Thrown msg => Thrown msg
    end
  else Returned false.

Section ProtectedRoute.

Variable session : option Session.
Variable status : SessionStatus.
Variable requiredRole : option string.

(** The effect: where [router.push] sends the visitor, if anywhere. *)
Definition ProtectedRoute_effect : outcome (option string) :=
  if bool_decide (status = loading) then Returned None
  else
    match session with
    | None => Returned (Some "/auth/sign-in")
    | Some s =>
        match role_mismatch requiredRole s with
        | Returned true => Returned (Some "/dashboard")
        | Returned false => Returned None
        | Thrown msg => Thrown msg
        end
    end.

(** What the component renders. *)
Definition ProtectedRoute : outcome Rendered :=
  if bool_decide (status = loading) then Returned Fallback
  else
    match session with
    | None => Returned RenderNull
    | Some s =>
        match role_mismatch requiredRole s with
        | Returned true => Returned RenderNull
        | Returned false => Returned Children
        | Thrown msg => Thrown msg
        end
    end.

End ProtectedRoute.






(** ** Sample data *)

(** A stand-in for bcrypt: the stored hash is the secret behind a marker. *)
Definition sample_hash (secret : string) : string := "$2a$12$" ++ secret.

Definition sample_compare (secret hashed : string) : bool :=
  String.eqb (sample_hash secret) hashed.

Definition sample_user (status : UserStatus) (role : UserRole) : User :=
  {| user_id := "u1"; user_email := "a@x.com"; user_name := Some "A";
     user_image := None; user_password := Some (sample_hash "secret1");
     user_role := role; user_status := status |}.

Definition oauth_user : User :=
  {| user_id := "u2"; user_email := "o@x.com"; user_name := Some "O";
     user_image := None; user_password := None;
     user_role := USER; user_status := ACTIVE |}.

Definition sample_db (status : UserStatus) (role : UserRole) : list User :=
  [sample_user status role; oauth_user].

Definition token_with_role (role : string) : jsobj :=
  assign "role" (JString role) (assign "id" (JString "u1") ∅).

Definition session_with_role (role : string) : Session :=
  {| sess_user := Some (token_with_role role);
     sess_own := assign "expires" (JString "2030-01-01T00:00:00.000Z") ∅ |}.

Definition admin_auth_user : AuthUser :=
  {| au_id := "u1"; au_email := "a@x.com"; au_name := Some "A"; au_image := None;
     au_role := Some ADMIN; au_status := Some ACTIVE |}.

Definition blank_session : Session :=
  {| sess_user := Some (assign "email" (JString "a@x.com") ∅);
     sess_own := assign "expires" (JString "2030-01-01T00:00:00.000Z") ∅ |}.

(** ** Further code of the guides *)

#[global] Instance outcome_ret : MRet outcome := fun A a => Returned a.

#[global] Instance outcome_bind : MBind outcome := fun A B f o =>
  match o with
  | Returned a => f a
  | Thrown msg => Thrown msg
  end.

(** The middleware guide's basic version of src/middleware.ts. *)
Module BasicMiddleware.

Definition authorized (req : NextRequest) : bool :=
  let pathname := req_pathname req in
  if startsWith pathname "/dashboard" then has_token req
  else if startsWith pathname "/api/protected" then has_token req
  else true.

End BasicMiddleware.

(** lib/auth/session.ts; [getServerSession(authOptions)] is the argument
    [session]. *)
Definition getCurrentUser (session : option Session) : option jsobj :=
  session ≫= sess_user.

Definition requireAuth (session : option Session) : outcome (option jsobj) :=
  match session with
  | None => Thrown "Authentication required"
  | Some s => Returned (sess_user s)
  end.

Definition requireRole (session : option Session) (role : string) : outcome (option jsobj) :=
  user ← requireAuth session;
  match user with
  | None => Thrown "TypeError: Cannot read properties of undefined"
  | Some u =>
      if negb (strict_eq (prop u "role") (JString role))
      then Thrown ("Role " ++ role ++ " required")
      else Returned user
  end.

(** [callbacks.redirect] of the advanced configuration. *)
Section Redirect.

(** [new URL(url).origin]; the constructor throws on what is not a URL. *)
Variable origin_of : string -> outcome string.


End Redirect.


(** Whether a property name is one of [keys]. *)
Definition mentions (keys : list string) (k : string) : bool :=
  existsb (String.eqb k) keys.


Definition sample_account : Account :=
  {| access_token := Some "at-1"; refresh_token := Some "rt-1"; provider := "github" |}.


(** [try { body } catch (error) { handler } finally { cleanup }]: the
    cleanup runs whichever way the rest ends. *)
Definition try_catch_finally {S A} (body handler : M S A) (cleanup : M S unit) : M S A :=
  fun s =>
    match try_catch body handler s with
    | (o, s') =>
        match cleanup s' with
        | (Returned _, s'') => (o, s'')
        | (Thrown msg, s'') => (Thrown msg, s'')
        end
    end.

(** JavaScript truthiness of a value. *)
Definition truthy_value (v : jsval) : bool :=
  match v with
  | JUndefined | JNull => false
  | JString s => truthy_string s
  | JNumber n => negb (n =? 0)
  end.

(** The authentication guide's sign-in form
    (features/auth/components/sign-in-form.tsx of the guide). *)
Module GuideSignIn.

Section Form.

Variable signIn : string -> string -> outcome (option SignInResponse).
Variable getSession : outcome (option Session).

Definition handleSubmit : M FormState unit :=
  setIsLoading true ;;
  setError "" ;;
  try_catch_finally
    (st ← get;
     result ← await (signIn (fs_email st) (fs_password st));
     if truthy_opt (result ≫= resp_error)
     then setError "Invalid credentials"
     else
       session ← await getSession;
       when (bool_decide (is_Some session)) (router_push "/dashboard"))
    (setError "An error occurred. Please try again.")
    (setIsLoading false).

End Form.

End GuideSignIn.

(** The sign-up form (features/auth/components/sign-up-form.tsx). *)
Module SignUp.

(** The JSON body posted to /api/auth/register. *)
Record RegisterBody : Type := mkRegisterBody {
  body_name : string;
  body_email : string;
  body_password : string
}.

(** What the form reads of the reply: [response.ok] and
    [await response.json()], which rejects on a body that is not JSON and
    is [None] for a body that is [null]. *)
Record Response : Type := mkResponse {
  response_ok : bool;
  response_json : outcome (option jsobj)
}.

Record State : Type := mkState {
  name : string;
  email : string;
  password : string;
  confirmPassword : string;
  isLoading : bool;
  error : jsval;
  pushed : list string;
  hashed : list string;
  posted : list RegisterBody
}.

Definition setIsLoading (b : bool) : M State unit :=
  modify (fun st => {| name := name st; email := email st; password := password st;
                       confirmPassword := confirmPassword st; isLoading := b;
                       error := error st; pushed := pushed st;
                       hashed := hashed st; posted := posted st |}).

Definition setError (v : jsval) : M State unit :=
  modify (fun st => {| name := name st; email := email st; password := password st;
                       confirmPassword := confirmPassword st; isLoading := isLoading st;
                       error := v; pushed := pushed st;
                       hashed := hashed st; posted := posted st |}).

Definition router_push (path : string) : M State unit :=
  modify (fun st => {| name := name st; email := email st; password := password st;
                       confirmPassword := confirmPassword st; isLoading := isLoading st;
                       error := error st; pushed := (pushed st ++ [path])%list;
                       hashed := hashed st; posted := posted st |}).

Section Form.

(** [bcrypt.hash(password, 12)] and [fetch('/api/auth/register', ...)];
    the calls made are recorded in the state. *)
Variable bcrypt_hash : string -> Z -> outcome string.
Variable fetch : RegisterBody -> outcome Response.

Definition hash_password (secret : string) : M State string := fun st =>
  (bcrypt_hash secret 12,
   {| name := name st; email := email st; password := password st;
      confirmPassword := confirmPassword st; isLoading := isLoading st;
      error := error st; pushed := pushed st;
      hashed := (hashed st ++ [secret])%list; posted := posted st |}).

Definition post_register (body : RegisterBody) : M State Response := fun st =>
  (fetch body,
   {| name := name st; email := email st; password := password st;
      confirmPassword := confirmPassword st; isLoading := isLoading st;
      error := error st; pushed := pushed st;
      hashed := hashed st; posted := (posted st ++ [body])%list |}).

Definition handleSubmit : M State unit :=
  setIsLoading true ;;
  setError (JString "") ;;
  st ← get;
  if negb (String.eqb (password st) (confirmPassword st)) then
    setError (JString "Passwords do not match") ;;
    setIsLoading false
  else if (String.length (password st) <? 6)%nat then
    setError (JString "Password must be at least 6 characters long") ;;
    setIsLoading false
  else
    try_catch_finally
      (hashedPassword ← hash_password (password st);
       response ← post_register {| body_name := name st; body_email := email st;
                                   body_password := hashedPassword |};
       data ← await (response_json response);
       if negb (response_ok response) then
         match data with
         | None => throw "TypeError: Cannot read properties of null"
         | Some d =>
             setError (if truthy_value (prop d "message") then prop d "message"
                       else JString "An error occurred during registration")
         end
       else
         router_push "/auth/sign-in?message=Registration successful. Please sign in.")
      (setError (JString "An error occurred. Please try again."))
      (setIsLoading false).

End Form.

End SignUp.

(** Sample surroundings of the sign-up form. *)
Definition sample_bcrypt_hash (secret : string) (cost : Z) : outcome string :=
  Returned (sample_hash secret).

Definition sample_signup : SignUp.State :=
  {| SignUp.name := "A"; SignUp.email := "a@x.com"; SignUp.password := "secret1";
     SignUp.confirmPassword := "secret1"; SignUp.isLoading := false;
     SignUp.error := JString ""; SignUp.pushed := []; SignUp.hashed := [];
     SignUp.posted := [] |}.


(** A form state after a submission: the fields as typed, with the
    loading flag, the message and what was asked of the router since. *)
Definition with_form (st : FormState) (loading : bool) (msg : string)
    (new_pushes : list string) (refreshes : nat) : FormState :=
  {| fs_email := fs_email st; fs_password := fs_password st;
     fs_isLoading := loading; fs_error := msg;
     fs_pushed := (fs_pushed st ++ new_pushes)%list;
     fs_refreshed := (refreshes + fs_refreshed st)%nat |}.


(** A sign-up form after a submission: the fields as typed, no longer
    loading, with the message and the calls made since. *)
Definition signup_after (st : SignUp.State) (err : jsval)
    (new_pushes new_hashed : list string) (new_posted : list SignUp.RegisterBody)
    : SignUp.State :=
  {| SignUp.name := SignUp.name st; SignUp.email := SignUp.email st;
     SignUp.password := SignUp.password st;
     SignUp.confirmPassword := SignUp.confirmPassword st;
     SignUp.isLoading := false; SignUp.error := err;
     SignUp.pushed := (SignUp.pushed st ++ new_pushes)%list;
     SignUp.hashed := (SignUp.hashed st ++ new_hashed)%list;
     SignUp.posted := (SignUp.posted st ++ new_posted)%list |}.

Definition signup_body (st : SignUp.State) (hashedPassword : string) : SignUp.RegisterBody :=
  {| SignUp.body_name := SignUp.name st; SignUp.body_email := SignUp.email st;
     SignUp.body_password := hashedPassword |}.

Definition sample_fetch_ok (body : SignUp.RegisterBody) : outcome SignUp.Response :=
  Returned {| SignUp.response_ok := true;
              SignUp.response_json := Returned (Some ∅) |}.

Definition sample_fetch_not_json (body : SignUp.RegisterBody) : outcome SignUp.Response :=
  Returned {| SignUp.response_ok := true;
              SignUp.response_json := Thrown "SyntaxError: Unexpected end of JSON input" |}.


(** ** Rate limiting (the middleware guide's rate-limiting middleware) *)

Module RateLimit.

(** An entry of [rateLimitMap]. *)
Record Entry : Type := mkEntry {
  count : Z;
  resetTime : Z
}.

(** [rateLimit(identifier, limit, windowMs)]; [now] is what [Date.now()]
    gives at the call, the state is [rateLimitMap]. *)
Definition rateLimit (now : Z) (identifier : string) (limit windowMs : Z)
    : M (gmap string Entry) bool := fun rateLimitMap =>
  let key := identifier in
  match rateLimitMap !! key with
  | Some record =>
      if resetTime record <? now
      then (Returned true,
            <[key := {| count := 1; resetTime := now + windowMs |}]> rateLimitMap)
      else if limit <=? count record
      then (Returned false, rateLimitMap)
      else (Returned true,
            <[key := {| count := count record + 1; resetTime := resetTime record |}]>
              rateLimitMap)
  | None =>
      (Returned true,
       <[key := {| count := 1; resetTime := now + windowMs |}]> rateLimitMap)
  end.

(** What the middleware reads of a request. *)
Record Request : Type := mkRequest {
  ip : option string;
  forwarded_for : option string;
  pathname : string
}.

(** [request.ip || request.headers.get('x-forwarded-for') || 'unknown'] *)
Definition client (request : Request) : string :=
  if truthy_opt (ip request) then default "" (ip request)
  else if truthy_opt (forwarded_for request) then default "" (forwarded_for request)
  else "unknown".

(** The middleware; [now1] and [now2] are the times of its two calls of
    [rateLimit]. *)
Definition middleware (now1 now2 : Z) (request : Request)
    : M (gmap string Entry) NextResponse :=
  let ip := client request in
  let pathname := pathname request in
  general ←
    (if startsWith pathname "/api/"
     then isAllowed ← rateLimit now1 ip 100 60000;
          mret (if negb isAllowed then Some (Json "Too many requests" 429) else None)
     else mret None);
  match general with
  | Some response => mret response
  | None =>
      if startsWith pathname "/api/auth/"
      then isAllowed ← rateLimit now2 ip 10 60000;
           mret (if negb isAllowed
                 then Json "Too many authentication attempts" 429
                 else Next)
      else mret Next
  end.

End RateLimit.

(** One call after the other, each at its own time, on the map the call
    before left. *)
Fixpoint rateLimit_calls (times : list Z) (identifier : string) (limit windowMs : Z)
    (m : gmap string RateLimit.Entry) : list bool * gmap string RateLimit.Entry :=
  match times with
  | [] => ([], m)
  | now :: times' =>
      let '(o, m') := RateLimit.rateLimit now identifier limit windowMs m in
      let '(answers, m'') := rateLimit_calls times' identifier limit windowMs m' in
      (match o with Returned b => b | Thrown _ => false end :: answers, m'')
  end.

Fixpoint rate_limited_requests (times : list (Z * Z)) (request : RateLimit.Request)
    (m : gmap string RateLimit.Entry) : list NextResponse :=
  match times with
  | [] => []
  | (now1, now2) :: times' =>
      let '(o, m') := RateLimit.middleware now1 now2 request m in
      match o with Returned r => r | Thrown _ => Next end
        :: rate_limited_requests times' request m'
  end.

Definition is_Next (r : NextResponse) : bool :=
  match r with Next => true | _ => false end.

Definition is_Json (r : NextResponse) : bool :=
  match r with Json _ _ => true | _ => false end.


(** ** A/B testing (the middleware guide's A/B middleware) *)

Module ABTest.

(** [ToInt32]: what the bitwise operators make of a number. *)
Definition to_int32 (z : Z) : Z := (z + 2 ^ 31) mod 2 ^ 32 - 2 ^ 31.

(** [b.charCodeAt(0)] for the characters of a string, one by one. *)
Definition char_codes (s : string) : list Z :=
  map (fun c => Z.of_nat (nat_of_ascii c)) (list_ascii_of_string s).

(** One step of the [reduce]: [a = ((a << 5) - a) + code; return a & a]. *)
Definition hash_step (a code : Z) : Z :=
  to_int32 ((to_int32 (to_int32 a * 32) - a) + code).

Definition hash (userId : string) : Z :=
  fold_left hash_step (char_codes userId) 0.

Definition getABTestVariant (userId testName : string) : string :=
  if Z.abs (hash userId) mod 2 =? 0 then "A" else "B".

Inductive Response : Type :=
  | Rewrite (path : string)
  | Continue (headers : list (string * string)).

(** The middleware; [cookie] is [request.cookies.get('user-id')?.value]. *)
Definition middleware (pathname : string) (cookie : option string) : Response :=
  if String.eqb pathname "/dashboard/overview" then
    let userId := if truthy_opt cookie then default "" cookie else "anonymous" in
    let variant := getABTestVariant userId "dashboard-overview" in
    if String.eqb variant "B" then Rewrite "/dashboard/overview-v2"
    else Continue [("X-AB-Test-Variant", variant)]
  else Continue [].

End ABTest.

(** ** Internationalization (the middleware guide's i18n middleware) *)

Module I18n.

Definition locales : list string := ["en"; "es"; "fr"; "de"].
Definition defaultLocale : string := "en".

(** [s.split(sep)] for a separator of one character. *)
Fixpoint split (sep : ascii) (s : string) : list string :=
  match s with
  | EmptyString => [EmptyString]
  | String c s' =>
      if Ascii.eqb c sep then EmptyString :: split sep s'
      else
        match split sep s' with
        | piece :: pieces => String c piece :: pieces
        | [] => [String c EmptyString]
        end
  end.

(** White space as [trim] sees it, among the characters a header value
    can hold. *)
Definition is_space (c : ascii) : bool :=
  let n := nat_of_ascii c in
  (Nat.leb 9 n && Nat.leb n 13) || Nat.eqb n 32 || Nat.eqb n 160.

Fixpoint trim_start (s : string) : string :=
  match s with
  | EmptyString => EmptyString
  | String c s' => if is_space c then trim_start s' else s
  end.

Fixpoint trim_end (s : string) : string :=
  match s with
  | EmptyString => EmptyString
  | String c s' =>
      match trim_end s' with
      | EmptyString => if is_space c then EmptyString else String c EmptyString
      | rest => String c rest
      end
  end.

Definition trim (s : string) : string := trim_end (trim_start s).

(** [pieces[0]] of a split, which always has a first piece. *)
Definition first_piece (pieces : list string) : string := hd "" pieces.

(** [locales.includes(lang)] *)
Definition includes (l : list string) (s : string) : bool := existsb (String.eqb s) l.

(** [acceptLanguage] is [request.headers.get('accept-language')]. *)
Definition getLocaleFromAcceptLanguage (acceptLanguage : option string) : option string :=
  if negb (truthy_opt acceptLanguage) then None
  else
    let languages :=
      map (fun lang => first_piece (split "-" lang))
        (map (fun lang => trim (first_piece (split ";" lang)))
           (split "," (default "" acceptLanguage))) in
    List.find (includes locales) languages.

Definition pathnameIsMissingLocale (pathname : string) : bool :=
  forallb (fun locale =>
             negb (startsWith pathname ("/" ++ locale ++ "/"))
             && negb (String.eqb pathname ("/" ++ locale)))
    locales.

(** [pathname.split('/')[1]], [undefined] when there is no second piece. *)
Definition getLocale (pathname : string) (acceptLanguage : option string) : option string :=
  if pathnameIsMissingLocale pathname then
    Some (default defaultLocale (getLocaleFromAcceptLanguage acceptLanguage))
  else nth_error (split "/" pathname) 1.

(** The middleware: the path it redirects to, or nothing. *)
Definition middleware (pathname : string) (acceptLanguage : option string) : option string :=
  if pathnameIsMissingLocale pathname then
    let locale := default defaultLocale (getLocaleFromAcceptLanguage acceptLanguage) in
    Some ("/" ++ locale ++ pathname)
  else None.

End I18n.

(** ** Password rules (lib/auth/password.ts) *)

Module Password.

Definition in_range (lo hi : nat) (c : ascii) : bool :=
  let n := nat_of_ascii c in Nat.leb lo n && Nat.leb n hi.

(** [/[A-Z]/], [/[a-z]/], [/\d/] and the class of special characters. *)
Definition is_upper : ascii -> bool := in_range 65 90.
Definition is_lower : ascii -> bool := in_range 97 122.
Definition is_digit : ascii -> bool := in_range 48 57.

Definition special_codes : list Z :=
  [33; 64; 35; 36; 37; 94; 38; 42; 40; 41; 44; 46; 63; 34; 58; 123; 125; 124; 60; 62].

Definition is_special (c : ascii) : bool :=
  existsb (Z.eqb (Z.of_nat (nat_of_ascii c))) special_codes.

(** [regex.test(password)] for a class of characters. *)
Definition test (class : ascii -> bool) (password : string) : bool :=
  existsb class (list_ascii_of_string password).

Record Validation : Type := mkValidation {
  isValid : bool;
  errors : list string
}.

(** [if (c) errors.push(msg)] *)
Definition push_if (c : bool) (msg : string) (errors : list string) : list string :=
  if c then (errors ++ [msg])%list else errors.

Definition validatePassword (password : string) : Validation :=
  let errors := [] in
  let errors := push_if (String.length password <? 8)%nat
                  "Password must be at least 8 characters long" errors in
  let errors := push_if (negb (test is_upper password))
                  "Password must contain at least one uppercase letter" errors in
  let errors := push_if (negb (test is_lower password))
                  "Password must contain at least one lowercase letter" errors in
  let errors := push_if (negb (test is_digit password))
                  "Password must contain at least one number" errors in
  let errors := push_if (negb (test is_special password))
                  "Password must contain at least one special character" errors in
  {| isValid := (length errors =? 0)%nat; errors := errors |}.

End Password.


(** ** The sign-in API route (app/api/auth/signin/route.ts of the API guide) *)

Module SignInRoute.

(** [rememberMe: z.boolean().default(false)] of [signInSchema]. *)
Definition rememberMe_of (input : option bool) : bool := default false input.

(** The [expiresIn] the route hands to [jwt.sign]. *)
Definition expiresIn (rememberMe : bool) : string :=
  if rememberMe then "30d" else "1d".

(** The number a string begins with, and what follows it. *)
Fixpoint leading_number (s : string) (acc : Z) : Z * string :=
  match s with
  | EmptyString => (acc, EmptyString)
  | String c s' =>
      let n := Z.of_nat (nat_of_ascii c) in
      if (48 <=? n) && (n <=? 57) then leading_number s' (10 * acc + (n - 48))
      else (acc, s)
  end.

(** A time span written as a number and a unit ([d], [h], [m] or [s]), in
    seconds: how [jwt.sign] reads a string [expiresIn]. *)
Definition timespan (s : string) : option Z :=
  let '(n, unit) := leading_number s 0 in
  if String.eqb unit s then None
  else if String.eqb unit "d" then Some (n * 86400)
  else if String.eqb unit "h" then Some (n * 3600)
  else if String.eqb unit "m" then Some (n * 60)
  else if String.eqb unit "s" then Some n
  else None.

(** The [exp] of the token the route signs at [issuedAt] (in seconds) for
    a request body whose [rememberMe] is [input]. *)
Definition token_expiresAt (issuedAt : Z) (input : option bool) : option Z :=
  span ← timespan (expiresIn (rememberMe_of input));
  Some (issuedAt + span).

End SignInRoute.


(** * Properties *)

(** ** [authorize] *)

Section AuthorizeFacts.

Variable compare : string -> string -> bool.
Variable db : list User.

(** Once the credentials are well formed and the record with its hash is
    found, the advanced [authorize] is decided by the password check
    first and the status second. *)
Lemma authorize_advanced_found email password u h :
  truthy_string email = true ->
  truthy_string password = true ->
  findUnique db email = Some u ->
  user_password u = Some h ->
  truthy_string h = true ->
  authorize_advanced compare db (credentials_of email password) =
    if compare password h then
      match user_status u with
      | SUSPENDED => Thrown "Account is suspended"
      | PENDING => Thrown "Account is pending verification"
      | _ => Returned {| au_id := user_id u; au_email := user_email u;
                         au_name := user_name u; au_image := user_image u;
                         au_role := Some (user_role u);
                         au_status := Some (user_status u) |}
      end
    else Thrown "Invalid credentials".
Proof.
  intros He Hp Hu Hh Hht. unfold authorize_advanced, credentials_of. simpl.
  rewrite He, Hp, Hu. simpl. rewrite Hh. simpl. rewrite Hht. simpl.
  destruct (compare password h); simpl; [|reflexivity].
  destruct (user_status u); reflexivity.
Qed.




(** The basic [authorize] on a record found with its hash: only the
    password check decides. *)
Lemma authorize_basic_found email password u h :
  truthy_string email = true ->
  truthy_string password = true ->
  findUnique db email = Some u ->
  user_password u = Some h ->
  truthy_string h = true ->
  authorize_basic compare db (credentials_of email password) =
    if compare password h then
      Some {| au_id := user_id u; au_email := user_email u;
              au_name := user_name u; au_image := user_image u;
              au_role := None; au_status := None |}
    else None.
Proof.
  intros He Hp Hu Hh Hht. unfold authorize_basic, credentials_of. simpl.
  rewrite He, Hp, Hu. simpl. rewrite Hh. simpl. rewrite Hht. simpl.
  destruct (compare password h); reflexivity.
Qed.




(** The messages the advanced [authorize] can throw. *)
Lemma authorize_advanced_thrown credentials msg :
  authorize_advanced compare db credentials = Thrown msg ->
  msg = "Email and password are required"
  \/ msg = "Invalid credentials"
  \/ msg = "Account is suspended"
  \/ msg = "Account is pending verification".
Proof.
  unfold authorize_advanced.
  repeat match goal with
         | |- context [if ?c then _ else _] => destruct c
         | |- context [match ?x with Some _ => _ | None => _ end] => destruct x
         end; intros H; inversion H; auto.
Qed.

End AuthorizeFacts.

(** C1 (as amended). In the advanced configuration a record whose status
    is [SUSPENDED] or [PENDING] never gets a successful result from
    [authorize], whatever the credentials, so also when the secret matches
    the stored hash. *)
Theorem authorize_advanced_blocks_suspended_pending
    (compare : string -> string -> bool) (db : list User)
    (credentials : option Credentials) (email : string) (u : User) :
  credentials ≫= cred_email = Some email ->
  findUnique db email = Some u ->
  user_status u = SUSPENDED \/ user_status u = PENDING ->
  returned (authorize_advanced compare db credentials) = None.
Proof.
  intros He Hu Hs. unfold authorize_advanced. rewrite He. simpl. rewrite Hu. simpl.
  destruct (negb (truthy_string email) || negb (truthy_opt (credentials ≫= cred_password)));
    [reflexivity|].
  destruct (negb (truthy_opt (user_password u))); simpl; [reflexivity|].
  destruct (negb (compare _ _)); [reflexivity|].
  destruct Hs as [-> | ->]; reflexivity.
Qed.

Lemma authorize_advanced_blocks_suspended_pending_witness :
  returned (authorize_advanced sample_compare (sample_db SUSPENDED USER)
              (credentials_of "a@x.com" "secret1")) = None.
Proof.
  apply (authorize_advanced_blocks_suspended_pending sample_compare
           (sample_db SUSPENDED USER) (credentials_of "a@x.com" "secret1")
           "a@x.com" (sample_user SUSPENDED USER)).
  - reflexivity.
  - reflexivity.
  - left. reflexivity.
Defined.

(** C1 fails as stated: the basic [authorize] signs a suspended account in
    when the secret matches, and the advanced one signs an [INACTIVE]
    account in. *)
Lemma status_gate_counterexample :
  authorize_basic sample_compare (sample_db SUSPENDED USER)
    (credentials_of "a@x.com" "secret1")
  = Some {| au_id := "u1"; au_email := "a@x.com"; au_name := Some "A";
            au_image := None; au_role := None; au_status := None |}
  /\ authorize_advanced sample_compare (sample_db INACTIVE USER)
       (credentials_of "a@x.com" "secret1")
     = Returned {| au_id := "u1"; au_email := "a@x.com"; au_name := Some "A";
                   au_image := None; au_role := Some USER;
                   au_status := Some INACTIVE |}.
Proof. split; reflexivity. Qed.

(** C2 (as amended). In the advanced [authorize] the password check comes
    before the status gate: for a [SUSPENDED] or [PENDING] record with a
    stored hash, a secret that does not match is reported as invalid
    credentials, and only a matching secret is answered with the status
    error. *)
Theorem authorize_advanced_password_before_status
    (compare : string -> string -> bool) (db : list User)
    (email password : string) (u : User) (h : string) :
  truthy_string email = true ->
  truthy_string password = true ->
  findUnique db email = Some u ->
  user_password u = Some h ->
  truthy_string h = true ->
  user_status u = SUSPENDED \/ user_status u = PENDING ->
  authorize_advanced compare db (credentials_of email password) =
    if compare password h
    then Thrown (if bool_decide (user_status u = SUSPENDED)
                 then "Account is suspended"
                 else "Account is pending verification")
    else Thrown "Invalid credentials".
Proof.
  intros He Hp Hu Hh Hht Hs.
  rewrite (authorize_advanced_found compare db email password u h) by assumption.
  destruct (compare password h); [|reflexivity].
  destruct Hs as [-> | ->]; reflexivity.
Qed.

Lemma authorize_advanced_password_before_status_witness :
  authorize_advanced sample_compare (sample_db PENDING USER)
    (credentials_of "a@x.com" "secret1")
  = Thrown "Account is pending verification".
Proof.
  apply (authorize_advanced_password_before_status sample_compare
           (sample_db PENDING USER) "a@x.com" "secret1"
           (sample_user PENDING USER) (sample_hash "secret1")).
  - reflexivity.
  - reflexivity.
  - reflexivity.
  - reflexivity.
  - reflexivity.
  - right. reflexivity.
Defined.

(** C2 fails as stated: a suspended account with a wrong password is told
    "Invalid credentials", not that the account is not active. *)
Lemma status_first_counterexample :
  authorize_advanced sample_compare (sample_db SUSPENDED USER)
    (credentials_of "a@x.com" "wrong")
  = Thrown "Invalid credentials".
Proof. reflexivity. Qed.

(** C3 (as amended). For well-formed credentials whose identifier has an
    [ACTIVE] record with a stored hash matching the secret, the advanced
    [authorize] returns a user with the record's id and the record's role;
    the basic [authorize] returns a user with the record's id and no role. *)
Theorem authorize_advanced_active_match
    (compare : string -> string -> bool) (db : list User)
    (email password : string) (u : User) (h : string) :
  truthy_string email = true ->
  truthy_string password = true ->
  findUnique db email = Some u ->
  user_status u = ACTIVE ->
  user_password u = Some h ->
  truthy_string h = true ->
  compare password h = true ->
  (exists a,
      authorize_advanced compare db (credentials_of email password) = Returned a
      /\ au_id a = user_id u
      /\ au_role a = Some (user_role u))
  /\ (exists b,
        authorize_basic compare db (credentials_of email password) = Some b
        /\ au_id b = user_id u
        /\ au_role b = None).
Proof.
  intros He Hp Hu Hs Hh Hht Hc. split.
  - rewrite (authorize_advanced_found compare db email password u h) by assumption.
    rewrite Hc, Hs. eexists. split; [reflexivity|]. split; reflexivity.
  - rewrite (authorize_basic_found compare db email password u h) by assumption.
    rewrite Hc. eexists. split; [reflexivity|]. split; reflexivity.
Qed.

Lemma authorize_advanced_active_match_witness :
  (exists a,
      authorize_advanced sample_compare (sample_db ACTIVE USER)
        (credentials_of "a@x.com" "secret1") = Returned a
      /\ au_id a = "u1"
      /\ au_role a = Some USER)
  /\ (exists b,
        authorize_basic sample_compare (sample_db ACTIVE USER)
          (credentials_of "a@x.com" "secret1") = Some b
        /\ au_id b = "u1"
        /\ au_role b = None).
Proof.
  apply (authorize_advanced_active_match sample_compare (sample_db ACTIVE USER)
           "a@x.com" "secret1" (sample_user ACTIVE USER) (sample_hash "secret1"));
    reflexivity.
Defined.

(** C3 fails as stated for the basic configuration: its [authorize]
    returns the record's id but no role. *)
Lemma basic_authorize_role_counterexample :
  authorize_basic sample_compare (sample_db ACTIVE ADMIN)
    (credentials_of "a@x.com" "secret1")
  = Some {| au_id := "u1"; au_email := "a@x.com"; au_name := Some "A";
            au_image := None; au_role := None; au_status := None |}
  /\ user_role (sample_user ACTIVE ADMIN) = ADMIN.
Proof. split; reflexivity. Qed.



(** ** Route protection *)

Lemma prefix_cons_inv (a : ascii) (s p : string) :
  String.prefix (String a s) p = true ->
  exists r, p = String a r /\ String.prefix s r = true.
Proof.
  destruct p as [|b r]; simpl; [discriminate|].
  destruct (ascii_dec a b) as [->|]; [|discriminate].
  intros H. exists r. split; [reflexivity | exact H].
Qed.

Ltac prefix_inv H :=
  repeat (apply prefix_cons_inv in H;
          let r := fresh "r" in
          let E := fresh "E" in
          destruct H as [r [E H]]; subst).

(** Paths under /dashboard/admin are paths under /dashboard, and none of
    them is an /auth, an /api/protected or the root path. *)
Lemma admin_path_shape (pathname : string) :
  startsWith pathname "/dashboard/admin" = true ->
  startsWith pathname "/dashboard" = true
  /\ startsWith pathname "/auth" = false
  /\ startsWith pathname "/api/protected" = false
  /\ String.eqb pathname "/" = false.
Proof.
  unfold startsWith. intros H. prefix_inv H.
  repeat split; reflexivity.
Qed.

Lemma guide_admin_path_shape (pathname : string) :
  startsWith pathname "/admin" = true ->
  startsWith pathname "/dashboard" = false.
Proof.
  unfold startsWith. intros H. prefix_inv H. reflexivity.
Qed.

(** The advanced middleware on a path under /dashboard/admin. *)
Lemma middleware_admin_path (pathname : string) (token : option jsobj) :
  startsWith pathname "/dashboard/admin" = true ->
  Middleware.middleware {| req_pathname := pathname; req_token := token |} =
    match token with
    | None => Redirect "/auth/sign-in" [("callbackUrl", pathname)]
    | Some t =>
        if strict_eq (prop t "role") (JString "admin") then Next
        else Redirect "/dashboard" []
    end.
Proof.
  intros H. destruct (admin_path_shape pathname H) as (Hd & Ha & Hp & _).
  unfold Middleware.middleware, has_token, token_role. simpl.
  rewrite H, Hd, Ha, Hp.
  destruct token as [t|]; simpl; [|reflexivity].
  destruct (strict_eq (prop t "role") (JString "admin")); reflexivity.
Qed.

Lemma authorized_admin_path (pathname : string) (token : option jsobj) :
  startsWith pathname "/dashboard/admin" = true ->
  Middleware.authorized {| req_pathname := pathname; req_token := token |} =
    bool_decide (is_Some token).
Proof.
  intros H. destruct (admin_path_shape pathname H) as (Hd & Ha & _ & Hr).
  unfold Middleware.authorized, has_token. simpl. rewrite Hd, Ha, Hr. reflexivity.
Qed.

(** The authentication guide's callback on a path under /admin. *)
Lemma guide_authorized_admin_path (pathname : string) (token : option jsobj) :
  startsWith pathname "/admin" = true ->
  AuthGuide.authorized {| req_pathname := pathname; req_token := token |} =
    match token with
    | None => false
    | Some t => strict_eq (prop t "role") (JString "ADMIN")
    end.
Proof.
  intros H. unfold AuthGuide.authorized, token_role. simpl.
  rewrite (guide_admin_path_shape pathname H), H.
  destruct token; reflexivity.
Qed.




(** ** The [jwt] and [session] callbacks *)

(** What the advanced [session] callback does, case by case. *)
Lemma advanced_session_run (p : SessionParams) :
  AdvancedConfig.session p =
    match sp_token p, sess_user (sp_session p) with
    | Some t, Some u =>
        let s' :=
          {| sess_user :=
               Some (assign "status" (prop t "status")
                      (assign "role" (prop t "role")
                        (assign "id" (prop t "id") u)));
             sess_own :=
               assign "provider" (prop t "provider")
                 (assign "refreshToken" (prop t "refreshToken")
                   (assign "accessToken" (prop t "accessToken")
                     (sess_own (sp_session p)))) |} in
        (Returned s', {| sp_session := s'; sp_token := Some t |})
    | Some t, None => (Thrown "TypeError: Cannot set properties of undefined", p)
    | None, _ => (Returned (sp_session p), p)
    end.
Proof.
  destruct p as [[[u|] own] [t|]]; reflexivity.
Qed.

Lemma basic_session_run (p : SessionParams) :
  BasicConfig.session p =
    match sp_token p, sess_user (sp_session p) with
    | Some t, Some u =>
        let s' := {| sess_user := Some (assign "id" (prop t "id") u);
                     sess_own := sess_own (sp_session p) |} in
        (Returned s', {| sp_session := s'; sp_token := Some t |})
    | _, _ => (Returned (sp_session p), p)
    end.
Proof.
  destruct p as [[[u|] own] [t|]]; reflexivity.
Qed.










(** C10. Without a fresh user (and so without an account) the [jwt]
    callback returns the token it was given and leaves it as it was. *)
Theorem jwt_without_user_is_identity (token : jsobj) :
  BasicConfig.jwt None token = (Returned token, token)
  /\ AdvancedConfig.jwt None None token = (Returned token, token).
Proof. split; reflexivity. Qed.

(** What the [jwt] callbacks write at sign-in. *)
Lemma advanced_jwt_run (user : AuthUser) (account : option Account) (token : jsobj) :
  let signed :=
    assign "status" (status_value user)
      (assign "role" (role_value user)
        (assign "id" (JString (au_id user)) token)) in
  let token' :=
    match account with
    | Some a =>
        assign "provider" (JString (provider a))
          (assign "refreshToken" (js_of (refresh_token a))
            (assign "accessToken" (js_of (access_token a)) signed))
    | None => signed
    end in
  AdvancedConfig.jwt (Some user) account token = (Returned token', token').
Proof. destruct account; reflexivity. Qed.

Lemma advanced_jwt_claims (user : AuthUser) (account : option Account) (token : jsobj) :
  let token' := snd (AdvancedConfig.jwt (Some user) account token) in
  prop token' "id" = JString (au_id user)
  /\ prop token' "role" = role_value user
  /\ prop token' "status" = status_value user.
Proof.
  cbv zeta. pose proof (advanced_jwt_run user account token) as H.
  cbv zeta in H. rewrite H. simpl.
  destruct account; unfold prop, assign; simplify_map_eq; auto.
Qed.

Lemma basic_jwt_run (user : AuthUser) (token : jsobj) :
  let token' := assign "id" (JString (au_id user)) token in
  BasicConfig.jwt (Some user) token = (Returned token', token').
Proof. reflexivity. Qed.

(** C6 (as amended). What [authorize] returned survives the two callbacks:
    the session built from the token that [jwt] wrote at sign-in carries
    the user's id, role and status in the advanced configuration, and the
    user's id in the basic one. *)
Theorem callbacks_round_trip
    (user : AuthUser) (account : option Account) (token : jsobj)
    (session0 : Session) (u0 : jsobj) :
  sess_user session0 = Some u0 ->
  (exists s,
      fst (AdvancedConfig.session
             {| sp_session := session0;
                sp_token := Some (snd (AdvancedConfig.jwt (Some user) account token)) |})
      = Returned s
      /\ session_user_prop "id" s = Returned (JString (au_id user))
      /\ session_user_prop "role" s = Returned (role_value user)
      /\ session_user_prop "status" s = Returned (status_value user))
  /\ (exists s,
        fst (BasicConfig.session
               {| sp_session := session0;
                  sp_token := Some (snd (BasicConfig.jwt (Some user) token)) |})
        = Returned s
        /\ session_user_prop "id" s = Returned (JString (au_id user))).
Proof.
  intros Hu. split.
  - destruct (advanced_jwt_claims user account token) as (Hid & Hrole & Hstatus).
    cbv zeta in Hid, Hrole, Hstatus.
    rewrite advanced_session_run. simpl. rewrite Hu. simpl.
    eexists. split; [reflexivity|].
    unfold session_user_prop. simpl. rewrite Hid, Hrole, Hstatus.
    unfold prop, assign. simplify_map_eq. auto.
  - rewrite basic_session_run. simpl. rewrite Hu. simpl.
    eexists. split; [reflexivity|].
    unfold session_user_prop, prop, assign. simpl. by simplify_map_eq.
Qed.

Lemma callbacks_round_trip_witness :
  (exists s,
      fst (AdvancedConfig.session
             {| sp_session := blank_session;
                sp_token := Some (snd (AdvancedConfig.jwt (Some admin_auth_user) None ∅)) |})
      = Returned s
      /\ session_user_prop "id" s = Returned (JString "u1")
      /\ session_user_prop "role" s = Returned (JString "ADMIN")
      /\ session_user_prop "status" s = Returned (JString "ACTIVE"))
  /\ (exists s,
        fst (BasicConfig.session
               {| sp_session := blank_session;
                  sp_token := Some (snd (BasicConfig.jwt (Some admin_auth_user) ∅)) |})
        = Returned s
        /\ session_user_prop "id" s = Returned (JString "u1")).
Proof.
  apply (callbacks_round_trip admin_auth_user None ∅ blank_session
           (assign "email" (JString "a@x.com") ∅)).
  reflexivity.
Defined.

(** C6 fails as stated: the basic callbacks carry the id only, so the role
    of the user who signed in does not come back out of the session; and
    in the advanced configuration the times a token carries ([iat], [exp])
    are not handed on to the session, whose [expires] stays what it was. *)
Lemma basic_round_trip_counterexample :
  (role_value admin_auth_user = JString "ADMIN"
   /\ (session_user_prop "role" <$>
         returned (fst (BasicConfig.session
                          {| sp_session := blank_session;
                             sp_token := Some (snd (BasicConfig.jwt (Some admin_auth_user) ∅)) |})))
      = Some (Returned JUndefined))
  /\ (let token := assign "exp" (JNumber 2593000) (assign "iat" (JNumber 1000) ∅) in
      let s := returned (fst (AdvancedConfig.session
                 {| sp_session := blank_session;
                    sp_token := Some (snd (AdvancedConfig.jwt (Some admin_auth_user) None token)) |})) in
      (session_user_prop "exp" <$> s) = Some (Returned JUndefined)
      /\ (session_user_prop "iat" <$> s) = Some (Returned JUndefined)
      /\ ((fun s' => sess_own s' !! "expires") <$> s)
         = Some (Some (JString "2030-01-01T00:00:00.000Z"))).
Proof.
  split; [split; [reflexivity | vm_compute; reflexivity]|].
  cbv zeta. repeat split; vm_compute; reflexivity.
Qed.

(** ** Session lifetime *)

(** C8 (as amended). Under the NextAuth configuration the session lifetime
    is [maxAge], thirty days: a session token expires 2592000 seconds after
    it was issued, and 86400 seconds is [updateAge]. The token the sign-in
    API route signs lives 86400 seconds without remember-me, which is the
    default, and 2592000 seconds with it. *)
Theorem session_lifetime (issuedAt : Z) :
  (AdvancedConfig.token_expiresAt issuedAt - issuedAt = 2592000
   /\ AdvancedConfig.session_maxAge = 2592000
   /\ AdvancedConfig.session_updateAge = 86400)
  /\ (SignInRoute.token_expiresAt issuedAt None = Some (issuedAt + 86400)
      /\ SignInRoute.token_expiresAt issuedAt (Some false) = Some (issuedAt + 86400)
      /\ SignInRoute.token_expiresAt issuedAt (Some true) = Some (issuedAt + 2592000)).
Proof.
  split.
  - unfold AdvancedConfig.token_expiresAt, AdvancedConfig.session_maxAge,
      AdvancedConfig.session_updateAge. repeat split; lia.
  - repeat split; reflexivity.
Qed.

(** C8 fails as stated for the NextAuth configuration: its lifetime is not
    86400 seconds, and a session token issued under it, without any
    remember-me, does not expire 86400 seconds after it was issued. *)
Lemma session_lifetime_counterexample :
  AdvancedConfig.session_maxAge <> 86400
  /\ AdvancedConfig.token_expiresAt 0 - 0 <> 86400.
Proof. split; vm_compute; discriminate. Qed.

(** ** The sign-in form *)

Lemma handleSubmit_error_reply
    (signIn : string -> string -> outcome (option SignInResponse))
    (getSession : outcome (option Session)) (st : FormState)
    (result : option SignInResponse) :
  signIn (fs_email st) (fs_password st) = Returned result ->
  truthy_opt (result ≫= resp_error) = true ->
  handleSubmit signIn getSession st = (Returned tt, rejected_form st).
Proof.
  intros Hs He. unfold handleSubmit, try_catch, mbind, M_bind, await, get,
    setIsLoading, setError, modify. simpl. rewrite Hs. simpl.
  destruct result as [[[e|] ? ? ?]|]; simpl in *; try discriminate.
  rewrite He. reflexivity.
Qed.

(** [handleSubmit] never throws: what goes wrong inside ends up in the
    form's error message. *)
Lemma handleSubmit_returns
    (signIn : string -> string -> outcome (option SignInResponse))
    (getSession : outcome (option Session)) (st : FormState) :
  fst (handleSubmit signIn getSession st) = Returned tt.
Proof.
  unfold handleSubmit, try_catch, mbind, M_bind, await, get, when,
    setIsLoading, setError, router_push, router_refresh, modify, mret, M_ret.
  simpl. destruct (signIn _ _) as [result|msg]; simpl; [|reflexivity].
  destruct (truthy_opt _); simpl; [reflexivity|].
  destruct getSession as [session|msg]; simpl; [|reflexivity].
  destruct (bool_decide _); reflexivity.
Qed.

Lemma thrown_message_truthy (compare : string -> string -> bool) (db : list User)
    (credentials : option Credentials) (msg : string) :
  authorize_advanced compare db credentials = Thrown msg ->
  truthy_string msg = true.
Proof.
  intros H. apply authorize_advanced_thrown in H.
  destruct H as [-> | [-> | [-> | ->]]]; reflexivity.
Qed.

(** C9. Whatever makes the advanced [authorize] fail (invalid credentials,
    a suspended or a pending account), the form shows the one message
    "Invalid email or password" (the spec's wording up to the capital
    letter), and [handleSubmit] returns normally, for this and for every
    other answer of [signIn]. *)
Theorem failed_sign_in_shows_generic_message
    (compare : string -> string -> bool) (db : list User)
    (getSession : outcome (option Session)) (st : FormState) :
  returned (authorize_advanced compare db
              (credentials_of (fs_email st) (fs_password st))) = None ->
  let after := handleSubmit (signIn_advanced compare db) getSession st in
  fst after = Returned tt
  /\ fs_error (snd after) = "Invalid email or password"
  /\ lower (fs_error (snd after)) = "invalid email or password"
  /\ (forall signIn, fst (handleSubmit signIn getSession st) = Returned tt).
Proof.
  intros Hfail after.
  assert (H : after = (Returned tt, rejected_form st)).
  { unfold after.
    apply (handleSubmit_error_reply _ _ _
             (Some (credentials_response
                (match authorize_advanced compare db
                         (credentials_of (fs_email st) (fs_password st)) with
                 | Returned u => Returned (Some u)
                 | Thrown msg => Thrown msg
                 end)))).
    - reflexivity.
    - destruct (authorize_advanced compare db _) as [a|msg] eqn:E;
        [discriminate Hfail|].
      simpl. apply (thrown_message_truthy compare db _ msg E). }
  rewrite H. repeat split. intros signIn. apply handleSubmit_returns.
Qed.

Lemma failed_sign_in_shows_generic_message_witness :
  let st := {| fs_email := "a@x.com"; fs_password := "secret1"; fs_isLoading := false;
               fs_error := ""; fs_pushed := []; fs_refreshed := 0 |} in
  let after := handleSubmit (signIn_advanced sample_compare (sample_db SUSPENDED USER))
                 (Returned None) st in
  fst after = Returned tt
  /\ fs_error (snd after) = "Invalid email or password".
Proof.
  cbv zeta.
  pose proof (failed_sign_in_shows_generic_message sample_compare
                (sample_db SUSPENDED USER) (Returned None)
                {| fs_email := "a@x.com"; fs_password := "secret1";
                   fs_isLoading := false; fs_error := ""; fs_pushed := [];
                   fs_refreshed := 0 |} eq_refl) as H.
  cbv zeta in H. destruct H as (H1 & H2 & _). split; [exact H1 | exact H2].
Defined.

(** * Further properties *)

(** ** The exported middleware as a whole *)

Lemma api_path_shape (pathname : string) :
  startsWith pathname "/api/protected" = true ->
  startsWith pathname "/dashboard" = false
  /\ startsWith pathname "/auth" = false
  /\ String.eqb pathname "/" = false.
Proof.
  unfold startsWith. intros H. prefix_inv H. repeat split; reflexivity.
Qed.

Lemma auth_path_shape (pathname : string) :
  startsWith pathname "/auth" = true ->
  startsWith pathname "/dashboard" = false
  /\ startsWith pathname "/api/protected" = false.
Proof.
  unfold startsWith. intros H. prefix_inv H. split; reflexivity.
Qed.

Lemma dashboard_path_shape (pathname : string) :
  startsWith pathname "/dashboard" = true ->
  startsWith pathname "/auth" = false
  /\ startsWith pathname "/api/protected" = false
  /\ String.eqb pathname "/" = false.
Proof.
  unfold startsWith. intros H. prefix_inv H. repeat split; reflexivity.
Qed.

(** The JSON 401 of the advanced middleware is never sent by the exported
    middleware: [withAuth] has turned every request that would get it
    away before. *)
Theorem gate_never_json (req : NextRequest) :
  is_Json (Middleware.gate req) = false.
Proof.
  unfold Middleware.gate, withAuth.
  destruct (Middleware.authorized req) eqn:Ha; [|reflexivity].
  unfold Middleware.middleware.
  destruct (has_token req && _); [reflexivity|].
  destruct (negb (has_token req) && startsWith _ "/dashboard"); [reflexivity|].
  destruct (startsWith _ "/dashboard/admin" && _); [reflexivity|].
  destruct (startsWith (req_pathname req) "/api/protected") eqn:Hp; simpl;
    [|reflexivity].
  destruct (api_path_shape _ Hp) as (Hd & Hau & Hr).
  unfold Middleware.authorized in Ha. rewrite Hau, Hr, Hd, Hp in Ha. simpl in Ha.
  rewrite Ha. reflexivity.
Qed.

(** A request for a path under /api/protected without a token would get
    the JSON 401 from the middleware function, but [authorized] refuses
    it, so the exported middleware never runs the function on it: it
    neither sends the 401 nor lets the request through. *)
Theorem gate_api_protected_without_token (pathname : string) :
  startsWith pathname "/api/protected" = true ->
  let req := {| req_pathname := pathname; req_token := None |} in
  Middleware.middleware req = Json "Unauthorized" 401
  /\ Middleware.authorized req = false
  /\ is_Json (Middleware.gate req) = false
  /\ is_Next (Middleware.gate req) = false.
Proof.
  intros Hp req. destruct (api_path_shape _ Hp) as (Hd & Hau & Hr).
  assert (Hadm : startsWith pathname "/dashboard/admin" = false).
  { destruct (startsWith pathname "/dashboard/admin") eqn:E; [|reflexivity].
    apply admin_path_shape in E. destruct E as (E & _). congruence. }
  assert (Ha : Middleware.authorized req = false).
  { unfold Middleware.authorized, req, has_token. simpl.
    rewrite Hau, Hr, Hd, Hp. reflexivity. }
  split.
  - unfold Middleware.middleware, req, has_token. simpl.
    rewrite Hd, Hadm, Hp. reflexivity.
  - split; [exact Ha|].
    unfold Middleware.gate, withAuth. rewrite Ha. split; reflexivity.
Qed.

Lemma gate_api_protected_without_token_witness :
  let req := {| req_pathname := "/api/protected/users"; req_token := None |} in
  Middleware.middleware req = Json "Unauthorized" 401
  /\ Middleware.authorized req = false
  /\ is_Json (Middleware.gate req) = false
  /\ is_Next (Middleware.gate req) = false.
Proof.
  apply (gate_api_protected_without_token "/api/protected/users"). reflexivity.
Defined.

(** What the exported middleware lets through to a protected path carries
    a token. *)
Theorem gate_next_protected_has_token (req : NextRequest) :
  Middleware.gate req = Next ->
  startsWith (req_pathname req) "/dashboard" || startsWith (req_pathname req) "/api/protected"
    = true ->
  is_Some (req_token req).
Proof.
  unfold Middleware.gate, withAuth. intros Hg Hp.
  destruct (Middleware.authorized req) eqn:Ha; [|discriminate].
  unfold Middleware.authorized in Ha.
  assert (Hpub : startsWith (req_pathname req) "/auth" || String.eqb (req_pathname req) "/"
                 = false).
  { apply orb_true_iff in Hp. destruct Hp as [Hp|Hp].
    - destruct (dashboard_path_shape _ Hp) as (-> & _ & ->). reflexivity.
    - destruct (api_path_shape _ Hp) as (_ & -> & ->). reflexivity. }
  rewrite Hpub, Hp in Ha. unfold has_token in Ha.
  apply bool_decide_eq_true in Ha. exact Ha.
Qed.

Lemma gate_next_protected_has_token_witness :
  is_Some (Some (token_with_role "user")).
Proof.
  apply (gate_next_protected_has_token
           {| req_pathname := "/dashboard/overview";
              req_token := Some (token_with_role "user") |});
    reflexivity.
Defined.

(** What the exported middleware lets through to a path under
    /dashboard/admin carries a token whose role is "admin". *)
Theorem gate_next_admin_role (req : NextRequest) :
  Middleware.gate req = Next ->
  startsWith (req_pathname req) "/dashboard/admin" = true ->
  exists token, req_token req = Some token /\ prop token "role" = JString "admin".
Proof.
  unfold Middleware.gate, withAuth. intros Hg Hp.
  destruct (Middleware.authorized req) eqn:Ha; [|discriminate].
  destruct req as [pathname token]. simpl in *.
  rewrite middleware_admin_path in Hg by assumption.
  destruct token as [t|]; [|discriminate].
  exists t. split; [reflexivity|].
  destruct (strict_eq (prop t "role") (JString "admin")) eqn:E; [|discriminate].
  unfold strict_eq in E. apply bool_decide_eq_true in E. exact E.
Qed.

Lemma gate_next_admin_role_witness :
  exists token, Some (token_with_role "admin") = Some token
                /\ prop token "role" = JString "admin".
Proof.
  apply (gate_next_admin_role
           {| req_pathname := "/dashboard/admin/users";
              req_token := Some (token_with_role "admin") |});
    reflexivity.
Defined.

(** The exported middleware does not redirect in circles: the page it
    sends a request to is let through when asked for with the same token. *)
Theorem gate_redirect_target_passes
    (req : NextRequest) (path : string) (params : list (string * string)) :
  Middleware.gate req = Redirect path params ->
  Middleware.gate {| req_pathname := path; req_token := req_token req |} = Next.
Proof.
  destruct req as [pathname token]. simpl. intros Hg.
  assert (Hcases : (path = "/dashboard" /\ is_Some token)
                   \/ (path = "/auth/sign-in" /\ token = None)).
  { unfold Middleware.gate, withAuth in Hg.
    destruct (Middleware.authorized _) eqn:Ha.
    - unfold Middleware.middleware, has_token in Hg. simpl in Hg.
      destruct token as [t|]; simpl in Hg.
      + left. split; [|eauto].
        destruct (startsWith pathname "/auth"); simpl in Hg; [congruence|].
        destruct (startsWith pathname "/dashboard/admin" && _); [congruence|].
        destruct (startsWith pathname "/api/protected"); simpl in Hg; discriminate.
      + right. split; [|reflexivity].
        destruct (startsWith pathname "/dashboard") eqn:Hd; simpl in Hg; [congruence|].
        destruct (startsWith pathname "/dashboard/admin") eqn:Hadm.
        { apply admin_path_shape in Hadm. destruct Hadm as (E & _). congruence. }
        destruct (startsWith pathname "/api/protected"); simpl in Hg; discriminate.
    - right. split; [congruence|].
      unfold Middleware.authorized, has_token in Ha. simpl in Ha.
      destruct token as [t|]; [|reflexivity].
      destruct (_ || _); [discriminate|]. destruct (_ || _); discriminate. }
  destruct Hcases as [[-> [t ->]] | [-> ->]]; reflexivity.
Qed.

Lemma gate_redirect_target_passes_witness :
  Middleware.gate {| req_pathname := "/dashboard"; req_token := Some (token_with_role "user") |}
  = Next.
Proof.
  apply (gate_redirect_target_passes
           {| req_pathname := "/dashboard/admin/users";
              req_token := Some (token_with_role "user") |}
           "/dashboard" []).
  reflexivity.
Defined.

(** The [authorized] callbacks of the basic and of the advanced middleware
    decide alike on every request. *)
Theorem authorized_basic_advanced_agree (req : NextRequest) :
  BasicMiddleware.authorized req = Middleware.authorized req.
Proof.
  unfold BasicMiddleware.authorized, Middleware.authorized.
  destruct (startsWith (req_pathname req) "/auth") eqn:Hau; simpl.
  - destruct (auth_path_shape _ Hau) as (-> & ->). reflexivity.
  - destruct (String.eqb (req_pathname req) "/") eqn:Hr.
    + apply String.eqb_eq in Hr. rewrite Hr. reflexivity.
    + destruct (startsWith (req_pathname req) "/dashboard"); simpl; [reflexivity|].
      destruct (startsWith (req_pathname req) "/api/protected"); reflexivity.
Qed.

(** ** Sign-in and the gates together *)

Lemma role_value_cases (user : AuthUser) :
  role_value user = JUndefined
  \/ role_value user = JString "ADMIN"
  \/ role_value user = JString "USER"
  \/ role_value user = JString "MODERATOR".
Proof.
  unfold role_value. destruct (au_role user) as [[]|]; simpl; auto.
Qed.

(** The role the advanced [jwt] callback writes is a Prisma role name, in
    capitals, and the advanced middleware asks for "admin": a token written
    at sign-in is never let through to a path under /dashboard/admin, the
    exported middleware sends it to /dashboard. *)
Theorem signed_in_token_never_passes_admin_check
    (user : AuthUser) (account : option Account) (token : jsobj) (pathname : string) :
  startsWith pathname "/dashboard/admin" = true ->
  Middleware.gate
    {| req_pathname := pathname;
       req_token := Some (snd (AdvancedConfig.jwt (Some user) account token)) |}
  = Redirect "/dashboard" [].
Proof.
  intros Hp. unfold Middleware.gate, withAuth.
  rewrite authorized_admin_path, middleware_admin_path by assumption. simpl.
  destruct (advanced_jwt_claims user account token) as (_ & Hrole & _).
  cbv zeta in Hrole. rewrite Hrole.
  destruct (role_value_cases user) as [-> | [-> | [-> | ->]]]; reflexivity.
Qed.

Lemma signed_in_token_never_passes_admin_check_witness :
  Middleware.gate
    {| req_pathname := "/dashboard/admin/users";
       req_token := Some (snd (AdvancedConfig.jwt (Some admin_auth_user) None ∅)) |}
  = Redirect "/dashboard" [].
Proof.
  apply (signed_in_token_never_passes_admin_check admin_auth_user None ∅
           "/dashboard/admin/users").
  reflexivity.
Defined.

(** The authentication guide's [authorized] callback and the advanced
    [jwt] callback fit together: a token written at sign-in is authorized
    for a path under /admin exactly when the user's role is [ADMIN]. *)
Theorem signed_in_token_guide_admin
    (user : AuthUser) (account : option Account) (token : jsobj) (pathname : string) :
  startsWith pathname "/admin" = true ->
  AuthGuide.authorized
    {| req_pathname := pathname;
       req_token := Some (snd (AdvancedConfig.jwt (Some user) account token)) |}
  = bool_decide (au_role user = Some ADMIN).
Proof.
  intros Hp. rewrite guide_authorized_admin_path by assumption.
  destruct (advanced_jwt_claims user account token) as (_ & Hrole & _).
  cbv zeta in Hrole. rewrite Hrole. unfold role_value.
  destruct (au_role user) as [[]|]; reflexivity.
Qed.

Lemma signed_in_token_guide_admin_witness :
  AuthGuide.authorized
    {| req_pathname := "/admin/users";
       req_token := Some (snd (AdvancedConfig.jwt (Some admin_auth_user) None ∅)) |}
  = bool_decide (au_role admin_auth_user = Some ADMIN).
Proof.
  apply (signed_in_token_guide_admin admin_auth_user None ∅ "/admin/users").
  reflexivity.
Defined.

(** ** [ProtectedRoute] *)

(** [ProtectedRoute] shows its children only to a loaded session, with the
    required role when one is asked for, and then it does not navigate. *)
Theorem protected_route_children
    (session : option Session) (status : SessionStatus) (requiredRole : option string) :
  ProtectedRoute session status requiredRole = Returned Children ->
  status <> loading
  /\ ProtectedRoute_effect session status requiredRole = Returned None
  /\ exists s, session = Some s
     /\ (truthy_opt requiredRole = true ->
         session_user_role s = Returned (js_of requiredRole)).
Proof.
  unfold ProtectedRoute, ProtectedRoute_effect, role_mismatch.
  destruct (bool_decide (status = loading)) eqn:Hs; [discriminate|].
  apply bool_decide_eq_false in Hs.
  destruct session as [s|]; [|discriminate].
  destruct (truthy_opt requiredRole).
  - destruct (session_user_role s) as [r|msg] eqn:Hr; [|discriminate].
    destruct (strict_eq r (js_of requiredRole)) eqn:E; simpl; [|discriminate].
    intros _. split; [exact Hs|]. split; [reflexivity|].
    exists s. split; [reflexivity|]. intros _.
    unfold strict_eq in E. apply bool_decide_eq_true in E. rewrite Hr, E. reflexivity.
  - intros _. split; [exact Hs|]. split; [reflexivity|].
    exists s. split; [reflexivity|]. discriminate.
Qed.

Lemma protected_route_children_witness :
  authenticated <> loading
  /\ ProtectedRoute_effect (Some (session_with_role "admin")) authenticated (Some "admin")
     = Returned None
  /\ exists s, Some (session_with_role "admin") = Some s
     /\ (truthy_opt (Some "admin") = true ->
         session_user_role s = Returned (js_of (Some "admin"))).
Proof.
  apply (protected_route_children (Some (session_with_role "admin")) authenticated
           (Some "admin")).
  reflexivity.
Defined.

(** Whenever [ProtectedRoute] renders nothing it is sending the visitor
    somewhere, and the other way round. *)
Theorem protected_route_null_iff_navigates
    (session : option Session) (status : SessionStatus) (requiredRole : option string) :
  ProtectedRoute session status requiredRole = Returned RenderNull
  <-> exists target,
        ProtectedRoute_effect session status requiredRole = Returned (Some target).
Proof.
  unfold ProtectedRoute, ProtectedRoute_effect.
  destruct (bool_decide (status = loading)).
  { split; [discriminate | intros [t H]; discriminate]. }
  destruct session as [s|].
  - destruct (role_mismatch requiredRole s) as [[|]|msg].
    + split; eauto.
    + split; [discriminate | intros [t H]; discriminate].
    + split; [discriminate | intros [t H]; discriminate].
  - split; eauto.
Qed.

(** ** lib/auth/session.ts *)

(** [requireRole] returns only the user of an existing session whose role
    is the one asked for, the user [requireAuth] returns. *)
Theorem requireRole_returns
    (session : option Session) (role : string) (user : option jsobj) :
  requireRole session role = Returned user ->
  requireAuth session = Returned user
  /\ exists s u, session = Some s /\ user = Some u /\ prop u "role" = JString role.
Proof.
  unfold requireRole, requireAuth. destruct session as [s|]; [|discriminate].
  simpl. destruct (sess_user s) as [u|]; [|discriminate].
  destruct (strict_eq (prop u "role") (JString role)) eqn:E; simpl; [|discriminate].
  intros H. inversion H. subst. split; [reflexivity|].
  exists s, u. repeat split.
  unfold strict_eq in E. apply bool_decide_eq_true in E. exact E.
Qed.

Lemma requireRole_returns_witness :
  requireAuth (Some (session_with_role "ADMIN")) = Returned (Some (token_with_role "ADMIN"))
  /\ exists s u, Some (session_with_role "ADMIN") = Some s
                 /\ Some (token_with_role "ADMIN") = Some u
                 /\ prop u "role" = JString "ADMIN".
Proof.
  apply (requireRole_returns (Some (session_with_role "ADMIN")) "ADMIN"
           (Some (token_with_role "ADMIN"))).
  reflexivity.
Defined.

(** Without a session [requireRole] fails as [requireAuth] does, whatever
    the role: the caller is told to authenticate, not which role is
    missing. *)
Theorem requireRole_without_session (role : string) :
  requireRole None role = Thrown "Authentication required"
  /\ requireAuth None = Thrown "Authentication required"
  /\ getCurrentUser None = None.
Proof. repeat split. Qed.

(** From sign-in to [requireRole]: on the session the advanced callbacks
    build for a user with a role, [requireRole] accepts the Prisma name of
    that role and refuses every other role by name. *)
Theorem requireRole_after_sign_in
    (user : AuthUser) (account : option Account) (token : jsobj)
    (session0 : Session) (u0 : jsobj) (r : UserRole) (role : string) :
  sess_user session0 = Some u0 ->
  au_role user = Some r ->
  exists s,
    fst (AdvancedConfig.session
           {| sp_session := session0;
              sp_token := Some (snd (AdvancedConfig.jwt (Some user) account token)) |})
    = Returned s
    /\ requireRole (Some s) role =
         if String.eqb role (UserRole_name r) then Returned (sess_user s)
         else Thrown ("Role " ++ role ++ " required").
Proof.
  intros Hu Hr.
  destruct (advanced_jwt_claims user account token) as (_ & Hrole & _).
  cbv zeta in Hrole.
  rewrite advanced_session_run. simpl. rewrite Hu. simpl.
  eexists. split; [reflexivity|].
  unfold requireRole, requireAuth. simpl.
  assert (Hp : prop (assign "status"
                       (prop (snd (AdvancedConfig.jwt (Some user) account token)) "status")
                       (assign "role"
                          (prop (snd (AdvancedConfig.jwt (Some user) account token)) "role")
                          (assign "id"
                             (prop (snd (AdvancedConfig.jwt (Some user) account token)) "id")
                             u0))) "role"
               = JString (UserRole_name r)).
  { rewrite Hrole. unfold role_value. rewrite Hr. simpl.
    unfold prop, assign. by simplify_map_eq. }
  rewrite Hp. unfold strict_eq.
  destruct (String.eqb role (UserRole_name r)) eqn:E.
  - apply String.eqb_eq in E. subst. rewrite bool_decide_eq_true_2; reflexivity.
  - apply String.eqb_neq in E. rewrite bool_decide_eq_false_2; [reflexivity|].
    congruence.
Qed.

Lemma requireRole_after_sign_in_witness :
  exists s,
    fst (AdvancedConfig.session
           {| sp_session := blank_session;
              sp_token := Some (snd (AdvancedConfig.jwt (Some admin_auth_user) None ∅)) |})
    = Returned s
    /\ requireRole (Some s) "USER" =
         if String.eqb "USER" (UserRole_name ADMIN) then Returned (sess_user s)
         else Thrown ("Role " ++ "USER" ++ " required").
Proof.
  apply (requireRole_after_sign_in admin_auth_user None ∅ blank_session
           (assign "email" (JString "a@x.com") ∅) ADMIN "USER");
    reflexivity.
Defined.

(** ** [callbacks.redirect] *)




(** ** What the callbacks leave alone *)

Lemma mentions_cons_false (keys : list string) (k k' : string) :
  mentions (k' :: keys) k = false -> k' <> k /\ mentions keys k = false.
Proof.
  unfold mentions. simpl. intros H. apply orb_false_iff in H. destruct H as [H1 H2].
  split; [|exact H2]. apply String.eqb_neq in H1. congruence.
Qed.

Ltac split_mentions H :=
  repeat (apply mentions_cons_false in H;
          let N := fresh "N" in destruct H as [N H]).

(** The [jwt] callbacks write [id], [role], [status] and the three account
    properties and nothing else: every other property of the token (the
    subject, the e-mail address, the times) is as it was. *)
Theorem jwt_touches_only_its_keys
    (user : option AuthUser) (account : option Account) (token : jsobj) (k : string) :
  mentions ["id"; "role"; "status"; "accessToken"; "refreshToken"; "provider"] k = false ->
  snd (AdvancedConfig.jwt user account token) !! k = token !! k
  /\ snd (BasicConfig.jwt user token) !! k = token !! k.
Proof.
  intros H. split_mentions H. split.
  - destruct user as [u|], account as [a|]; simpl; unfold assign;
      rewrite ?lookup_insert_ne by assumption; reflexivity.
  - destruct user as [u|]; simpl; unfold assign;
      rewrite ?lookup_insert_ne by assumption; reflexivity.
Qed.

Lemma jwt_touches_only_its_keys_witness :
  snd (AdvancedConfig.jwt (Some admin_auth_user) (Some sample_account)
         (assign "exp" (JNumber 2593000) ∅)) !! "exp"
    = assign "exp" (JNumber 2593000) ∅ !! "exp"
  /\ snd (BasicConfig.jwt (Some admin_auth_user) (assign "exp" (JNumber 2593000) ∅)) !! "exp"
    = assign "exp" (JNumber 2593000) ∅ !! "exp".
Proof.
  apply (jwt_touches_only_its_keys (Some admin_auth_user) (Some sample_account)
           (assign "exp" (JNumber 2593000) ∅) "exp").
  reflexivity.
Defined.

(** The [session] callbacks leave the rest of the session alone: of
    [session.user] only [id], [role] and [status] can change (name, e-mail
    address and image stay), and of the session itself only the three
    account properties ([expires] stays). *)
Theorem session_touches_only_its_keys (p : SessionParams) (ku ko : string) :
  mentions ["id"; "role"; "status"] ku = false ->
  mentions ["accessToken"; "refreshToken"; "provider"] ko = false ->
  ((sess_user (sp_session (snd (AdvancedConfig.session p))) ≫= (.!! ku))
     = (sess_user (sp_session p) ≫= (.!! ku))
   /\ (sess_user (sp_session (snd (BasicConfig.session p))) ≫= (.!! ku))
     = (sess_user (sp_session p) ≫= (.!! ku)))
  /\ (sess_own (sp_session (snd (AdvancedConfig.session p))) !! ko
        = sess_own (sp_session p) !! ko
      /\ sess_own (sp_session (snd (BasicConfig.session p))) !! ko
        = sess_own (sp_session p) !! ko).
Proof.
  rewrite advanced_session_run, basic_session_run.
  intros Hu Ho. split_mentions Hu. split_mentions Ho.
  destruct p as [[[u|] own] [t|]]; simpl; unfold assign;
    rewrite ?lookup_insert_ne by assumption; repeat split; reflexivity.
Qed.

Lemma session_touches_only_its_keys_witness :
  let p := {| sp_session := blank_session; sp_token := Some (token_with_role "USER") |} in
  ((sess_user (sp_session (snd (AdvancedConfig.session p))) ≫= (.!! "email"))
     = (sess_user (sp_session p) ≫= (.!! "email"))
   /\ (sess_user (sp_session (snd (BasicConfig.session p))) ≫= (.!! "email"))
     = (sess_user (sp_session p) ≫= (.!! "email")))
  /\ (sess_own (sp_session (snd (AdvancedConfig.session p))) !! "expires"
        = sess_own (sp_session p) !! "expires"
      /\ sess_own (sp_session (snd (BasicConfig.session p))) !! "expires"
        = sess_own (sp_session p) !! "expires").
Proof.
  apply (session_touches_only_its_keys
           {| sp_session := blank_session; sp_token := Some (token_with_role "USER") |}
           "email" "expires");
    reflexivity.
Defined.

(** After an OAuth sign-in the session handed to the client carries the
    provider's access token and refresh token. *)
Theorem session_exposes_account_tokens
    (user : option AuthUser) (account : Account) (token : jsobj)
    (session0 : Session) (u0 : jsobj) :
  sess_user session0 = Some u0 ->
  exists s,
    fst (AdvancedConfig.session
           {| sp_session := session0;
              sp_token := Some (snd (AdvancedConfig.jwt user (Some account) token)) |})
    = Returned s
    /\ prop (sess_own s) "accessToken" = js_of (access_token account)
    /\ prop (sess_own s) "refreshToken" = js_of (refresh_token account)
    /\ prop (sess_own s) "provider" = JString (provider account).
Proof.
  intros Hu. rewrite advanced_session_run. simpl. rewrite Hu. simpl.
  eexists. split; [reflexivity|]. simpl.
  destruct user as [u|]; simpl; unfold prop, assign; simplify_map_eq; auto.
Qed.

Lemma session_exposes_account_tokens_witness :
  exists s,
    fst (AdvancedConfig.session
           {| sp_session := blank_session;
              sp_token := Some (snd (AdvancedConfig.jwt None (Some sample_account) ∅)) |})
    = Returned s
    /\ prop (sess_own s) "accessToken" = JString "at-1"
    /\ prop (sess_own s) "refreshToken" = JString "rt-1"
    /\ prop (sess_own s) "provider" = JString "github".
Proof.
  apply (session_exposes_account_tokens None sample_account ∅ blank_session
           (assign "email" (JString "a@x.com") ∅)).
  reflexivity.
Defined.

(** A session without [user]: the advanced [session] callback throws a
    [TypeError] before it has assigned anything, the basic one checks for
    it and returns the session as it is. *)
Theorem session_without_user (s : Session) (token : jsobj) :
  sess_user s = None ->
  let p := {| sp_session := s; sp_token := Some token |} in
  AdvancedConfig.session p = (Thrown "TypeError: Cannot set properties of undefined", p)
  /\ BasicConfig.session p = (Returned s, p).
Proof.
  intros Hs p. rewrite advanced_session_run, basic_session_run. unfold p. simpl.
  rewrite Hs. split; reflexivity.
Qed.

Lemma session_without_user_witness :
  let s := {| sess_user := None; sess_own := ∅ |} in
  let p := {| sp_session := s; sp_token := Some (token_with_role "USER") |} in
  AdvancedConfig.session p = (Thrown "TypeError: Cannot set properties of undefined", p)
  /\ BasicConfig.session p = (Returned s, p).
Proof.
  apply (session_without_user {| sess_user := None; sess_own := ∅ |}
           (token_with_role "USER")).
  reflexivity.
Defined.

(** ** More on [authorize] *)

Lemma findUnique_email (db : list User) (email : string) (u : User) :
  findUnique db email = Some u -> user_email u = email /\ In u db.
Proof.
  unfold findUnique. intros H. apply find_some in H. destruct H as [Hin He].
  apply String.eqb_eq in He. split; assumption.
Qed.

(** Soundness of the advanced [authorize]: a user is returned only for
    credentials that are both there, for the record stored under the
    submitted e-mail address, whose stored hash the submitted password
    verifies against, and whose status is neither [SUSPENDED] nor
    [PENDING]; the user returned is that record's. *)
Theorem authorize_advanced_sound
    (compare : string -> string -> bool) (db : list User)
    (credentials : option Credentials) (a : AuthUser) :
  authorize_advanced compare db credentials = Returned a ->
  exists email password u h,
    credentials ≫= cred_email = Some email
    /\ credentials ≫= cred_password = Some password
    /\ email <> "" /\ password <> ""
    /\ In u db /\ user_email u = email
    /\ user_password u = Some h /\ compare password h = true
    /\ user_status u <> SUSPENDED /\ user_status u <> PENDING
    /\ au_id a = user_id u /\ au_email a = email
    /\ au_role a = Some (user_role u) /\ au_status a = Some (user_status u).
Proof.
  unfold authorize_advanced.
  destruct (credentials ≫= cred_email) as [email|]; [|discriminate].
  destruct (credentials ≫= cred_password) as [password|];
    [|simpl; rewrite orb_true_r; discriminate].
  simpl. unfold truthy_string.
  destruct (String.eqb email "") eqn:Ee; [discriminate|].
  destruct (String.eqb password "") eqn:Ep; [discriminate|]. simpl.
  destruct (findUnique db email) as [u|] eqn:Hu; [|discriminate]. simpl.
  destruct (user_password u) as [h|] eqn:Hh; [|discriminate]. simpl.
  destruct (truthy_string h); simpl; [|discriminate].
  destruct (compare password h) eqn:Hc; [|discriminate]. simpl.
  destruct (bool_decide (user_status u = SUSPENDED)) eqn:Hs; [discriminate|].
  destruct (bool_decide (user_status u = PENDING)) eqn:Hp; [discriminate|].
  intros H. inversion H. subst. clear H. simpl.
  apply bool_decide_eq_false in Hs, Hp.
  apply String.eqb_neq in Ee, Ep.
  destruct (findUnique_email _ _ _ Hu) as [Hemail Hin].
  exists email, password, u, h. repeat split; assumption.
Qed.

Lemma authorize_advanced_sound_witness :
  exists email password u h,
    credentials_of "a@x.com" "secret1" ≫= cred_email = Some email
    /\ credentials_of "a@x.com" "secret1" ≫= cred_password = Some password
    /\ email <> "" /\ password <> ""
    /\ In u (sample_db ACTIVE USER) /\ user_email u = email
    /\ user_password u = Some h /\ sample_compare password h = true
    /\ user_status u <> SUSPENDED /\ user_status u <> PENDING
    /\ au_id {| au_id := "u1"; au_email := "a@x.com"; au_name := Some "A";
                au_image := None; au_role := Some USER; au_status := Some ACTIVE |}
       = user_id u
    /\ au_email {| au_id := "u1"; au_email := "a@x.com"; au_name := Some "A";
                   au_image := None; au_role := Some USER; au_status := Some ACTIVE |}
       = email
    /\ au_role {| au_id := "u1"; au_email := "a@x.com"; au_name := Some "A";
                  au_image := None; au_role := Some USER; au_status := Some ACTIVE |}
       = Some (user_role u)
    /\ au_status {| au_id := "u1"; au_email := "a@x.com"; au_name := Some "A";
                    au_image := None; au_role := Some USER; au_status := Some ACTIVE |}
       = Some (user_status u).
Proof.
  apply (authorize_advanced_sound sample_compare (sample_db ACTIVE USER)
           (credentials_of "a@x.com" "secret1")).
  reflexivity.
Defined.

(** Soundness of the basic [authorize]: the same, but for the status,
    which it does not look at. *)
Theorem authorize_basic_sound
    (compare : string -> string -> bool) (db : list User)
    (credentials : option Credentials) (a : AuthUser) :
  authorize_basic compare db credentials = Some a ->
  exists email password u h,
    credentials ≫= cred_email = Some email
    /\ credentials ≫= cred_password = Some password
    /\ email <> "" /\ password <> ""
    /\ In u db /\ user_email u = email
    /\ user_password u = Some h /\ compare password h = true
    /\ au_id a = user_id u /\ au_email a = email
    /\ au_role a = None /\ au_status a = None.
Proof.
  unfold authorize_basic.
  destruct (credentials ≫= cred_email) as [email|]; [|discriminate].
  destruct (credentials ≫= cred_password) as [password|];
    [|simpl; rewrite orb_true_r; discriminate].
  simpl. unfold truthy_string.
  destruct (String.eqb email "") eqn:Ee; [discriminate|].
  destruct (String.eqb password "") eqn:Ep; [discriminate|]. simpl.
  destruct (findUnique db email) as [u|] eqn:Hu; [|discriminate].
  destruct (user_password u) as [h|] eqn:Hh; [|discriminate]. simpl.
  destruct (truthy_string h); simpl; [|discriminate].
  destruct (compare password h) eqn:Hc; [|discriminate]. simpl.
  intros H. inversion H. subst. clear H. simpl.
  apply String.eqb_neq in Ee, Ep.
  destruct (findUnique_email _ _ _ Hu) as [Hemail Hin].
  exists email, password, u, h. repeat split; assumption.
Qed.

Lemma authorize_basic_sound_witness :
  exists email password u h,
    credentials_of "a@x.com" "secret1" ≫= cred_email = Some email
    /\ credentials_of "a@x.com" "secret1" ≫= cred_password = Some password
    /\ email <> "" /\ password <> ""
    /\ In u (sample_db SUSPENDED USER) /\ user_email u = email
    /\ user_password u = Some h /\ sample_compare password h = true
    /\ au_id {| au_id := "u1"; au_email := "a@x.com"; au_name := Some "A";
                au_image := None; au_role := None; au_status := None |}
       = user_id u
    /\ au_email {| au_id := "u1"; au_email := "a@x.com"; au_name := Some "A";
                   au_image := None; au_role := None; au_status := None |}
       = email
    /\ au_role {| au_id := "u1"; au_email := "a@x.com"; au_name := Some "A";
                  au_image := None; au_role := None; au_status := None |}
       = None
    /\ au_status {| au_id := "u1"; au_email := "a@x.com"; au_name := Some "A";
                    au_image := None; au_role := None; au_status := None |}
       = None.
Proof.
  apply (authorize_basic_sound sample_compare (sample_db SUSPENDED USER)
           (credentials_of "a@x.com" "secret1")).
  reflexivity.
Defined.

(** The two configurations differ by the status gate and by what they
    return about it only: the advanced [authorize] returns a user exactly
    when the basic one does and the record found is neither [SUSPENDED]
    nor [PENDING], and it is the basic one's user with role and status
    added. *)
Theorem authorize_advanced_refines_basic
    (compare : string -> string -> bool) (db : list User)
    (credentials : option Credentials) :
  returned (authorize_advanced compare db credentials) =
    b ← authorize_basic compare db credentials;
    u ← findUnique db (default "" (credentials ≫= cred_email));
    if bool_decide (user_status u = SUSPENDED) || bool_decide (user_status u = PENDING)
    then None
    else Some {| au_id := au_id b; au_email := au_email b; au_name := au_name b;
                 au_image := au_image b; au_role := Some (user_role u);
                 au_status := Some (user_status u) |}.
Proof.
  unfold authorize_advanced, authorize_basic.
  destruct (negb (truthy_opt (credentials ≫= cred_email))
            || negb (truthy_opt (credentials ≫= cred_password))); [reflexivity|].
  destruct (findUnique db (default "" (credentials ≫= cred_email))) as [u|] eqn:Hu;
    simpl; [|reflexivity].
  destruct (negb (truthy_opt (user_password u))); simpl; [reflexivity|].
  destruct (negb (compare _ _)); simpl; [reflexivity|].
  destruct (bool_decide (user_status u = SUSPENDED)); simpl; [reflexivity|].
  destruct (bool_decide (user_status u = PENDING)); reflexivity.
Qed.

(** Credentials that are missing, or whose e-mail address or password is
    missing or empty, are turned down before anything is looked up: the
    answer is the same for every user table and every hash comparison. *)
Theorem authorize_incomplete_credentials
    (compare : string -> string -> bool) (db : list User)
    (credentials : option Credentials) :
  truthy_opt (credentials ≫= cred_email) && truthy_opt (credentials ≫= cred_password)
    = false ->
  authorize_advanced compare db credentials = Thrown "Email and password are required"
  /\ authorize_basic compare db credentials = None.
Proof.
  intros H. unfold authorize_advanced, authorize_basic.
  rewrite <- negb_andb, H. split; reflexivity.
Qed.

Lemma authorize_incomplete_credentials_witness :
  authorize_advanced sample_compare (sample_db ACTIVE USER)
    (Some {| cred_email := Some "a@x.com"; cred_password := Some "" |})
    = Thrown "Email and password are required"
  /\ authorize_basic sample_compare (sample_db ACTIVE USER)
    (Some {| cred_email := Some "a@x.com"; cred_password := Some "" |}) = None.
Proof.
  apply (authorize_incomplete_credentials sample_compare (sample_db ACTIVE USER)
           (Some {| cred_email := Some "a@x.com"; cred_password := Some "" |})).
  reflexivity.
Defined.


(** ** The forms *)

(** The sign-in form, outcome by outcome. *)
Lemma handleSubmit_run
    (signIn : string -> string -> outcome (option SignInResponse))
    (getSession : outcome (option Session)) (st : FormState) :
  handleSubmit signIn getSession st =
    (Returned tt,
     match signIn (fs_email st) (fs_password st) with
     | Thrown _ => with_form st false "An error occurred. Please try again." [] 0
     | Returned result =>
         if truthy_opt (result ≫= resp_error)
         then with_form st true "Invalid email or password" [] 0
         else
           match getSession with
           | Thrown _ => with_form st false "An error occurred. Please try again." [] 0
           | Returned None => with_form st true "" [] 0
           | Returned (Some _) => with_form st true "" ["/dashboard/overview"] 1
           end
     end).
Proof.
  unfold handleSubmit, try_catch, mbind, M_bind, await, get, when, setIsLoading,
    setError, router_push, router_refresh, modify, mret, M_ret, with_form. simpl.
  destruct (signIn (fs_email st) (fs_password st)) as [[[[e|] ? ? ?]|]|msg]; simpl;
    try destruct (truthy_string e); simpl;
    try (destruct getSession as [[s|]|msg']; simpl);
    rewrite ?app_nil_r; reflexivity.
Qed.

Lemma guide_handleSubmit_run
    (signIn : string -> string -> outcome (option SignInResponse))
    (getSession : outcome (option Session)) (st : FormState) :
  GuideSignIn.handleSubmit signIn getSession st =
    (Returned tt,
     match signIn (fs_email st) (fs_password st) with
     | Thrown _ => with_form st false "An error occurred. Please try again." [] 0
     | Returned result =>
         if truthy_opt (result ≫= resp_error)
         then with_form st false "Invalid credentials" [] 0
         else
           match getSession with
           | Thrown _ => with_form st false "An error occurred. Please try again." [] 0
           | Returned None => with_form st false "" [] 0
           | Returned (Some _) => with_form st false "" ["/dashboard"] 0
           end
     end).
Proof.
  unfold GuideSignIn.handleSubmit, try_catch_finally, try_catch, mbind, M_bind, await,
    get, when, setIsLoading, setError, router_push, modify, mret, M_ret, with_form.
  simpl.
  destruct (signIn (fs_email st) (fs_password st)) as [[[[e|] ? ? ?]|]|msg]; simpl;
    try destruct (truthy_string e); simpl;
    try (destruct getSession as [[s|]|msg']; simpl);
    rewrite ?app_nil_r; reflexivity.
Qed.

Lemma app_neq_self {A} (l : list A) (x : A) : (l ++ [x])%list <> l.
Proof.
  intros H. apply (f_equal (@length A)) in H. rewrite length_app in H. simpl in H. lia.
Qed.

(** The sign-in form goes to the dashboard only after [signIn] has
    answered without an error and a session is there; then it goes to
    /dashboard/overview, once, and refreshes. *)
Theorem sign_in_form_navigates_only_signed_in
    (signIn : string -> string -> outcome (option SignInResponse))
    (getSession : outcome (option Session)) (st : FormState) :
  fs_pushed (snd (handleSubmit signIn getSession st)) <> fs_pushed st ->
  exists result session,
    signIn (fs_email st) (fs_password st) = Returned result
    /\ truthy_opt (result ≫= resp_error) = false
    /\ getSession = Returned (Some session)
    /\ fs_pushed (snd (handleSubmit signIn getSession st))
       = (fs_pushed st ++ ["/dashboard/overview"])%list
    /\ fs_refreshed (snd (handleSubmit signIn getSession st)) = S (fs_refreshed st).
Proof.
  rewrite handleSubmit_run. simpl.
  destruct (signIn (fs_email st) (fs_password st)) as [result|msg]; simpl;
    [|rewrite app_nil_r; congruence].
  destruct (truthy_opt (result ≫= resp_error)) eqn:He; simpl;
    [rewrite app_nil_r; congruence|].
  destruct getSession as [[session|]|msg]; simpl;
    try (rewrite app_nil_r; congruence).
  intros _. exists result, session. repeat split. exact He.
Qed.

Lemma sign_in_form_navigates_only_signed_in_witness :
  let signIn := signIn_advanced sample_compare (sample_db ACTIVE USER) in
  let st := {| fs_email := "a@x.com"; fs_password := "secret1"; fs_isLoading := false;
               fs_error := ""; fs_pushed := []; fs_refreshed := 0 |} in
  exists result session,
    signIn (fs_email st) (fs_password st) = Returned result
    /\ truthy_opt (result ≫= resp_error) = false
    /\ Returned (Some blank_session) = Returned (Some session)
    /\ fs_pushed (snd (handleSubmit signIn (Returned (Some blank_session)) st))
       = (fs_pushed st ++ ["/dashboard/overview"])%list
    /\ fs_refreshed (snd (handleSubmit signIn (Returned (Some blank_session)) st))
       = S (fs_refreshed st).
Proof.
  apply (sign_in_form_navigates_only_signed_in
           (signIn_advanced sample_compare (sample_db ACTIVE USER))
           (Returned (Some blank_session))
           {| fs_email := "a@x.com"; fs_password := "secret1"; fs_isLoading := false;
              fs_error := ""; fs_pushed := []; fs_refreshed := 0 |}).
  vm_compute. discriminate.
Defined.

(** The sign-in form leaves the loading state only through its [catch]:
    after a submission in which nothing was thrown (a sign-in that was
    turned down included) [isLoading] is still true, and the inputs and
    the button stay disabled. *)
Theorem sign_in_form_stays_loading
    (signIn : string -> string -> outcome (option SignInResponse))
    (getSession : outcome (option Session)) (st : FormState)
    (result : option SignInResponse) :
  signIn (fs_email st) (fs_password st) = Returned result ->
  truthy_opt (result ≫= resp_error) || bool_decide (is_Some (returned getSession)) = true ->
  fs_isLoading (snd (handleSubmit signIn getSession st)) = true.
Proof.
  intros Hs Hok. rewrite handleSubmit_run, Hs. simpl.
  destruct (truthy_opt (result ≫= resp_error)); simpl; [reflexivity|].
  simpl in Hok. destruct getSession as [[session|]|msg]; simpl; try reflexivity.
  discriminate Hok.
Qed.

Lemma sign_in_form_stays_loading_witness :
  fs_isLoading
    (snd (handleSubmit (signIn_advanced sample_compare (sample_db ACTIVE USER))
            (Returned None)
            {| fs_email := "a@x.com"; fs_password := "wrong"; fs_isLoading := false;
               fs_error := ""; fs_pushed := []; fs_refreshed := 0 |}))
  = true.
Proof.
  apply (sign_in_form_stays_loading
           (signIn_advanced sample_compare (sample_db ACTIVE USER)) (Returned None)
           {| fs_email := "a@x.com"; fs_password := "wrong"; fs_isLoading := false;
              fs_error := ""; fs_pushed := []; fs_refreshed := 0 |}
           (Some (credentials_response (Thrown "Invalid credentials"))));
    reflexivity.
Defined.

(** The guide's sign-in form has a [finally]: whatever [signIn] and
    [getSession] do, it returns normally and is no longer loading, and it
    has navigated (to /dashboard) only if [signIn] answered without an
    error and a session is there. *)
Theorem guide_sign_in_form_settles
    (signIn : string -> string -> outcome (option SignInResponse))
    (getSession : outcome (option Session)) (st : FormState) :
  let after := GuideSignIn.handleSubmit signIn getSession st in
  fst after = Returned tt
  /\ fs_isLoading (snd after) = false
  /\ (fs_pushed (snd after) = fs_pushed st
      \/ (fs_pushed (snd after) = (fs_pushed st ++ ["/dashboard"])%list
          /\ exists result session,
               signIn (fs_email st) (fs_password st) = Returned result
               /\ truthy_opt (result ≫= resp_error) = false
               /\ getSession = Returned (Some session))).
Proof.
  cbv zeta. rewrite guide_handleSubmit_run. simpl.
  split; [reflexivity|].
  destruct (signIn (fs_email st) (fs_password st)) as [result|msg]; simpl;
    [|rewrite app_nil_r; auto].
  destruct (truthy_opt (result ≫= resp_error)) eqn:He; simpl;
    [rewrite app_nil_r; auto|].
  destruct getSession as [[session|]|msg]; simpl; try (rewrite app_nil_r; auto).
  split; [reflexivity|]. right. split; [reflexivity|]. eauto.
Qed.

(** The sign-up form, outcome by outcome. *)
Lemma signup_run
    (bcrypt_hash : string -> Z -> outcome string)
    (fetch : SignUp.RegisterBody -> outcome SignUp.Response) (st : SignUp.State) :
  let generic := JString "An error occurred. Please try again." in
  let pw := SignUp.password st in
  SignUp.handleSubmit bcrypt_hash fetch st =
    (Returned tt,
     if negb (String.eqb pw (SignUp.confirmPassword st))
     then signup_after st (JString "Passwords do not match") [] [] []
     else if (String.length pw <? 6)%nat
     then signup_after st (JString "Password must be at least 6 characters long") [] [] []
     else
       match bcrypt_hash pw 12 with
       | Thrown _ => signup_after st generic [] [pw] []
       | Returned h =>
           match fetch (signup_body st h) with
           | Thrown _ => signup_after st generic [] [pw] [signup_body st h]
           | Returned response =>
               match SignUp.response_json response with
               | Thrown _ => signup_after st generic [] [pw] [signup_body st h]
               | Returned data =>
                   if negb (SignUp.response_ok response) then
                     match data with
                     | None => signup_after st generic [] [pw] [signup_body st h]
                     | Some d =>
                         signup_after st
                           (if truthy_value (prop d "message") then prop d "message"
                            else JString "An error occurred during registration")
                           [] [pw] [signup_body st h]
                     end
                   else
                     signup_after st (JString "")
                       ["/auth/sign-in?message=Registration successful. Please sign in."]
                       [pw] [signup_body st h]
               end
           end
       end).
Proof.
  cbv zeta.
  unfold SignUp.handleSubmit, SignUp.hash_password, SignUp.post_register,
    try_catch_finally, try_catch, mbind, M_bind, await, get, throw,
    SignUp.setIsLoading, SignUp.setError, SignUp.router_push, modify, mret, M_ret,
    signup_after, signup_body.
  simpl.
  destruct (negb (String.eqb _ _)); simpl; [rewrite !app_nil_r; reflexivity|].
  destruct (String.length _ <? 6)%nat; simpl; [rewrite !app_nil_r; reflexivity|].
  destruct (bcrypt_hash _ 12) as [h|msg]; simpl; [|rewrite !app_nil_r; reflexivity].
  destruct (fetch _) as [[ok json]|msg]; simpl; [|rewrite !app_nil_r; reflexivity].
  destruct json as [[d|]|msg]; simpl; destruct ok; simpl;
    rewrite ?app_nil_r; reflexivity.
Qed.

(** The sign-up form checks before it does anything: when the two
    passwords differ, or the password has fewer than six characters,
    nothing is hashed, nothing is posted, nothing navigates, and the form
    says which it was (that the passwords differ, if both). *)
Theorem signup_validation
    (bcrypt_hash : string -> Z -> outcome string)
    (fetch : SignUp.RegisterBody -> outcome SignUp.Response) (st : SignUp.State) :
  negb (String.eqb (SignUp.password st) (SignUp.confirmPassword st))
  || (String.length (SignUp.password st) <? 6)%nat = true ->
  let after := snd (SignUp.handleSubmit bcrypt_hash fetch st) in
  SignUp.hashed after = SignUp.hashed st
  /\ SignUp.posted after = SignUp.posted st
  /\ SignUp.pushed after = SignUp.pushed st
  /\ SignUp.isLoading after = false
  /\ SignUp.error after =
       JString (if String.eqb (SignUp.password st) (SignUp.confirmPassword st)
                then "Password must be at least 6 characters long"
                else "Passwords do not match").
Proof.
  intros H after. unfold after. pose proof (signup_run bcrypt_hash fetch st) as R.
  cbv zeta in R. rewrite R. clear R. simpl.
  destruct (String.eqb _ _); simpl in *.
  - rewrite H. simpl. rewrite !app_nil_r. repeat split.
  - rewrite !app_nil_r. repeat split.
Qed.

Lemma signup_validation_witness :
  let st := {| SignUp.name := "A"; SignUp.email := "a@x.com"; SignUp.password := "abc";
               SignUp.confirmPassword := "abc"; SignUp.isLoading := false;
               SignUp.error := JString ""; SignUp.pushed := []; SignUp.hashed := [];
               SignUp.posted := [] |} in
  let after := snd (SignUp.handleSubmit sample_bcrypt_hash sample_fetch_ok st) in
  SignUp.hashed after = SignUp.hashed st
  /\ SignUp.posted after = SignUp.posted st
  /\ SignUp.pushed after = SignUp.pushed st
  /\ SignUp.isLoading after = false
  /\ SignUp.error after =
       JString (if String.eqb (SignUp.password st) (SignUp.confirmPassword st)
                then "Password must be at least 6 characters long"
                else "Passwords do not match").
Proof.
  apply (signup_validation sample_bcrypt_hash sample_fetch_ok
           {| SignUp.name := "A"; SignUp.email := "a@x.com"; SignUp.password := "abc";
              SignUp.confirmPassword := "abc"; SignUp.isLoading := false;
              SignUp.error := JString ""; SignUp.pushed := []; SignUp.hashed := [];
              SignUp.posted := [] |}).
  reflexivity.
Defined.

(** The sign-up form always comes to rest: it returns normally and is no
    longer loading, whatever the hashing, the request and the reply do. It
    posts at most once, and what it posts carries, as the password, what
    [bcrypt.hash] made of the typed password with cost 12, for passwords
    that are equal and at least six characters long. *)
Theorem signup_settles_and_posts_the_hash
    (bcrypt_hash : string -> Z -> outcome string)
    (fetch : SignUp.RegisterBody -> outcome SignUp.Response) (st : SignUp.State) :
  let run := SignUp.handleSubmit bcrypt_hash fetch st in
  fst run = Returned tt
  /\ SignUp.isLoading (snd run) = false
  /\ (SignUp.posted (snd run) = SignUp.posted st
      \/ exists h,
           bcrypt_hash (SignUp.password st) 12 = Returned h
           /\ SignUp.posted (snd run)
              = (SignUp.posted st
                   ++ [{| SignUp.body_name := SignUp.name st;
                          SignUp.body_email := SignUp.email st;
                          SignUp.body_password := h |}])%list
           /\ SignUp.password st = SignUp.confirmPassword st
           /\ (6 <= String.length (SignUp.password st))%nat).
Proof.
  cbv zeta. pose proof (signup_run bcrypt_hash fetch st) as R.
  cbv zeta in R. rewrite R. clear R. simpl.
  split; [reflexivity|].
  destruct (String.eqb _ _) eqn:Eq; simpl;
    [|split; [reflexivity|left; apply app_nil_r]].
  destruct (String.length _ <? 6)%nat eqn:El; simpl;
    [split; [reflexivity|left; apply app_nil_r]|].
  apply String.eqb_eq in Eq. apply Nat.ltb_ge in El.
  destruct (bcrypt_hash _ 12) as [h|msg] eqn:Hh; simpl;
    [|split; [reflexivity|left; apply app_nil_r]].
  assert (Hposted : exists h0, Returned h = Returned h0
            /\ (SignUp.posted st ++ [signup_body st h])%list
               = (SignUp.posted st
                    ++ [{| SignUp.body_name := SignUp.name st;
                           SignUp.body_email := SignUp.email st;
                           SignUp.body_password := h0 |}])%list
            /\ SignUp.password st = SignUp.confirmPassword st
            /\ (6 <= String.length (SignUp.password st))%nat).
  { exists h. repeat split; assumption. }
  destruct (fetch _) as [response|msg]; simpl; [|split; [reflexivity|right; exact Hposted]].
  destruct (SignUp.response_json response) as [data|msg]; simpl;
    [|split; [reflexivity|right; exact Hposted]].
  destruct (negb (SignUp.response_ok response)); simpl;
    [destruct data|]; simpl; (split; [reflexivity|right; exact Hposted]).
Qed.

(** The sign-up form goes to the sign-in page only after the hash was
    made, the request was answered, the reply's body was read as JSON and
    the reply was ok. *)
Theorem signup_navigates_only_registered
    (bcrypt_hash : string -> Z -> outcome string)
    (fetch : SignUp.RegisterBody -> outcome SignUp.Response) (st : SignUp.State) :
  SignUp.pushed (snd (SignUp.handleSubmit bcrypt_hash fetch st)) <> SignUp.pushed st ->
  exists h response data,
    bcrypt_hash (SignUp.password st) 12 = Returned h
    /\ fetch (signup_body st h) = Returned response
    /\ SignUp.response_json response = Returned data
    /\ SignUp.response_ok response = true
    /\ SignUp.pushed (snd (SignUp.handleSubmit bcrypt_hash fetch st))
       = (SignUp.pushed st
            ++ ["/auth/sign-in?message=Registration successful. Please sign in."])%list.
Proof.
  pose proof (signup_run bcrypt_hash fetch st) as R.
  cbv zeta in R. rewrite R. clear R. simpl.
  destruct (negb (String.eqb _ _)); simpl; [rewrite app_nil_r; congruence|].
  destruct (String.length _ <? 6)%nat; simpl; [rewrite app_nil_r; congruence|].
  destruct (bcrypt_hash _ 12) as [h|msg] eqn:Hh; simpl; [|rewrite app_nil_r; congruence].
  destruct (fetch _) as [response|msg] eqn:Hf; simpl; [|rewrite app_nil_r; congruence].
  destruct (SignUp.response_json response) as [data|msg] eqn:Hj; simpl;
    [|rewrite app_nil_r; congruence].
  destruct (SignUp.response_ok response) eqn:Hok; simpl.
  - intros _. exists h, response, data. repeat split; assumption.
  - destruct data; simpl; rewrite app_nil_r; congruence.
Qed.

Lemma signup_navigates_only_registered_witness :
  exists h response data,
    sample_bcrypt_hash (SignUp.password sample_signup) 12 = Returned h
    /\ sample_fetch_ok (signup_body sample_signup h) = Returned response
    /\ SignUp.response_json response = Returned data
    /\ SignUp.response_ok response = true
    /\ SignUp.pushed (snd (SignUp.handleSubmit sample_bcrypt_hash sample_fetch_ok
                             sample_signup))
       = (SignUp.pushed sample_signup
            ++ ["/auth/sign-in?message=Registration successful. Please sign in."])%list.
Proof.
  apply (signup_navigates_only_registered sample_bcrypt_hash sample_fetch_ok sample_signup).
  vm_compute. discriminate.
Defined.

(** The reply's body is read before the reply's status: when the body is
    not JSON the form shows its general error and stays where it is, also
    when the reply was ok and the account has been made. *)
Theorem signup_reply_not_json
    (bcrypt_hash : string -> Z -> outcome string)
    (fetch : SignUp.RegisterBody -> outcome SignUp.Response) (st : SignUp.State)
    (h : string) (response : SignUp.Response) (msg : string) :
  SignUp.password st = SignUp.confirmPassword st ->
  (6 <= String.length (SignUp.password st))%nat ->
  bcrypt_hash (SignUp.password st) 12 = Returned h ->
  fetch (signup_body st h) = Returned response ->
  SignUp.response_json response = Thrown msg ->
  let after := snd (SignUp.handleSubmit bcrypt_hash fetch st) in
  SignUp.error after = JString "An error occurred. Please try again."
  /\ SignUp.pushed after = SignUp.pushed st
  /\ SignUp.posted after = (SignUp.posted st ++ [signup_body st h])%list.
Proof.
  intros Heq Hlen Hh Hf Hj after. unfold after.
  pose proof (signup_run bcrypt_hash fetch st) as R.
  cbv zeta in R. rewrite R. clear R. simpl.
  rewrite <- Heq, String.eqb_refl. simpl.
  apply Nat.ltb_ge in Hlen. rewrite Hlen, Hh, Hf, Hj. simpl.
  rewrite app_nil_r. repeat split.
Qed.

Lemma signup_reply_not_json_witness :
  let after := snd (SignUp.handleSubmit sample_bcrypt_hash sample_fetch_not_json
                      sample_signup) in
  SignUp.error after = JString "An error occurred. Please try again."
  /\ SignUp.pushed after = SignUp.pushed sample_signup
  /\ SignUp.posted after
     = (SignUp.posted sample_signup
          ++ [signup_body sample_signup (sample_hash "secret1")])%list.
Proof.
  apply (signup_reply_not_json sample_bcrypt_hash sample_fetch_not_json sample_signup
           (sample_hash "secret1")
           {| SignUp.response_ok := true;
              SignUp.response_json := Thrown "SyntaxError: Unexpected end of JSON input" |}
           "SyntaxError: Unexpected end of JSON input").
  - reflexivity.
  - vm_compute. lia.
  - reflexivity.
  - reflexivity.
  - reflexivity.
Defined.

(** ** Rate limiting *)

Lemma rateLimit_in_window (now : Z) (id : string) (limit windowMs c r : Z)
    (m : gmap string RateLimit.Entry) :
  m !! id = Some {| RateLimit.count := c; RateLimit.resetTime := r |} ->
  now <= r ->
  RateLimit.rateLimit now id limit windowMs m =
    if limit <=? c then (Returned false, m)
    else (Returned true,
          <[id := {| RateLimit.count := c + 1; RateLimit.resetTime := r |}]> m).
Proof.
  intros Hm Hn. unfold RateLimit.rateLimit. rewrite Hm. simpl.
  assert (E : (r <? now) = false) by (apply Z.ltb_ge; exact Hn).
  rewrite E. reflexivity.
Qed.

Lemma rateLimit_calls_in_window (times : list Z) (id : string) (limit windowMs : Z) :
  forall (c r : Z) (m : gmap string RateLimit.Entry),
    m !! id = Some {| RateLimit.count := c; RateLimit.resetTime := r |} ->
    Forall (fun now => now <= r) times ->
    fst (rateLimit_calls times id limit windowMs m) =
      (repeat true (Nat.min (length times) (Z.to_nat (limit - c)))
       ++ repeat false (length times - Z.to_nat (limit - c)))%list.
Proof.
  induction times as [|now times IH]; intros c r m Hm Ht; [reflexivity|].
  inversion Ht as [|? ? Hnow Hrest]; subst. simpl.
  rewrite (rateLimit_in_window now id limit windowMs c r m Hm Hnow).
  destruct (limit <=? c) eqn:E.
  - apply Z.leb_le in E.
    specialize (IH c r m Hm Hrest).
    destruct (rateLimit_calls times id limit windowMs m) as [answers m'] eqn:R.
    simpl in *. rewrite IH.
    replace (Z.to_nat (limit - c)) with 0%nat by lia.
    rewrite Nat.min_0_r, Nat.sub_0_r. reflexivity.
  - apply Z.leb_gt in E.
    assert (Hm' : <[id := {| RateLimit.count := c + 1; RateLimit.resetTime := r |}]> m !! id
                  = Some {| RateLimit.count := c + 1; RateLimit.resetTime := r |})
      by apply lookup_insert_eq.
    specialize (IH (c + 1) r _ Hm' Hrest).
    destruct (rateLimit_calls times id limit windowMs _) as [answers m'] eqn:R.
    simpl in *. rewrite IH.
    replace (Z.to_nat (limit - c)) with (S (Z.to_nat (limit - (c + 1)))) by lia.
    reflexivity.
Qed.

(** The budget of a window: of the calls made for an identifier from its
    first one until the window it opened has run out, the first [limit]
    are allowed and all later ones refused; a limit below one still lets
    the call that opens the window through. *)
Theorem rateLimit_window_budget
    (first : Z) (later : list Z) (id : string) (limit windowMs : Z)
    (m : gmap string RateLimit.Entry) :
  m !! id = None ->
  Forall (fun now => now <= first + windowMs) later ->
  let allowed := Z.to_nat (Z.max limit 1) in
  let calls := S (length later) in
  fst (rateLimit_calls (first :: later) id limit windowMs m) =
    (repeat true (Nat.min calls allowed) ++ repeat false (calls - allowed))%list.
Proof.
  intros Hm Ht allowed calls. unfold allowed, calls. simpl.
  unfold RateLimit.rateLimit at 1. rewrite Hm.
  pose proof (rateLimit_calls_in_window later id limit windowMs 1 (first + windowMs)
                (<[id := {| RateLimit.count := 1;
                            RateLimit.resetTime := first + windowMs |}]> m)
                (lookup_insert_eq _ _ _) Ht) as H.
  destruct (rateLimit_calls later id limit windowMs _) as [answers m'] eqn:R.
  simpl in *. rewrite H.
  destruct (Z.to_nat (Z.max limit 1)) as [|a] eqn:Ea; [lia|].
  replace (Z.to_nat (limit - 1)) with a by lia.
  reflexivity.
Qed.

Lemma rateLimit_window_budget_witness :
  fst (rateLimit_calls [1000; 1500; 2000; 61000] "10.0.0.1" 2 60000 ∅)
  = (repeat true (Nat.min 4 (Z.to_nat (Z.max 2 1)))
     ++ repeat false (4 - Z.to_nat (Z.max 2 1)))%list.
Proof.
  apply (rateLimit_window_budget 1000 [1500; 2000; 61000] "10.0.0.1" 2 60000 ∅).
  - reflexivity.
  - repeat constructor; lia.
Defined.

(** The window ends strictly after [resetTime]: a call at [resetTime]
    itself is still counted against the old window and refused when that
    is used up, while any later call opens a new window, is allowed and
    starts counting from one. Every call leaves the entries of the other
    identifiers alone. *)
Theorem rateLimit_window_edge
    (now : Z) (id other : string) (limit windowMs c r : Z)
    (m : gmap string RateLimit.Entry) :
  m !! id = Some {| RateLimit.count := c; RateLimit.resetTime := r |} ->
  limit <= c ->
  other <> id ->
  let run := RateLimit.rateLimit now id limit windowMs m in
  run = (if now <=? r then (Returned false, m)
         else (Returned true,
               <[id := {| RateLimit.count := 1;
                          RateLimit.resetTime := now + windowMs |}]> m))
  /\ snd run !! other = m !! other.
Proof.
  intros Hm Hl Ho run. unfold run.
  destruct (Z.leb_spec now r) as [Hn|Hn].
  - rewrite (rateLimit_in_window now id limit windowMs c r m Hm Hn).
    assert (E : (limit <=? c) = true) by (apply Z.leb_le; exact Hl).
    rewrite E. split; reflexivity.
  - unfold RateLimit.rateLimit. rewrite Hm. simpl.
    assert (E : (r <? now) = true) by (apply Z.ltb_lt; exact Hn).
    rewrite E. simpl. split; [reflexivity|].
    apply lookup_insert_ne. congruence.
Qed.

Lemma rateLimit_window_edge_witness :
  let m : gmap string RateLimit.Entry :=
    {[ "10.0.0.1" := {| RateLimit.count := 10; RateLimit.resetTime := 61000 |} ]} in
  let run := RateLimit.rateLimit 61000 "10.0.0.1" 10 60000 m in
  run = (if 61000 <=? 61000 then (Returned false, m)
         else (Returned true,
               <["10.0.0.1" := {| RateLimit.count := 1;
                                  RateLimit.resetTime := 61000 + 60000 |}]> m))
  /\ snd run !! "10.0.0.2" = m !! "10.0.0.2".
Proof.
  apply (rateLimit_window_edge 61000 "10.0.0.1" "10.0.0.2" 10 60000 10 61000
           {[ "10.0.0.1" := {| RateLimit.count := 10; RateLimit.resetTime := 61000 |} ]}).
  - reflexivity.
  - lia.
  - discriminate.
Defined.

Lemma api_auth_path_shape (pathname : string) :
  startsWith pathname "/api/auth/" = true -> startsWith pathname "/api/" = true.
Proof.
  unfold startsWith. intros H. prefix_inv H. reflexivity.
Qed.

(** A request for an auth route inside the window, by the count so far. *)
Lemma rate_middleware_auth_step
    (now1 now2 c r : Z) (request : RateLimit.Request) (m : gmap string RateLimit.Entry) :
  startsWith (RateLimit.pathname request) "/api/auth/" = true ->
  m !! RateLimit.client request
    = Some {| RateLimit.count := c; RateLimit.resetTime := r |} ->
  now1 <= r -> now2 <= r ->
  RateLimit.middleware now1 now2 request m =
    if 100 <=? c then (Returned (Json "Too many requests" 429), m)
    else if 10 <=? c + 1
    then (Returned (Json "Too many authentication attempts" 429),
          <[RateLimit.client request :=
              {| RateLimit.count := c + 1; RateLimit.resetTime := r |}]> m)
    else (Returned Next,
          <[RateLimit.client request :=
              {| RateLimit.count := c + 2; RateLimit.resetTime := r |}]> m).
Proof.
  intros Hp Hm H1 H2. unfold RateLimit.middleware.
  rewrite Hp, (api_auth_path_shape _ Hp).
  unfold mbind, M_bind, mret, M_ret.
  rewrite (rateLimit_in_window now1 _ 100 60000 c r m Hm H1).
  destruct (100 <=? c); simpl; [reflexivity|].
  rewrite (rateLimit_in_window now2 _ 10 60000 (c + 1) r _ (lookup_insert_eq _ _ _) H2).
  destruct (10 <=? c + 1); simpl; [reflexivity|].
  rewrite insert_insert_eq. replace (c + 1 + 1) with (c + 2) by lia. reflexivity.
Qed.

Lemma rate_requests_exhausted (times : list (Z * Z)) (request : RateLimit.Request) :
  forall (c r : Z) (m : gmap string RateLimit.Entry),
    startsWith (RateLimit.pathname request) "/api/auth/" = true ->
    m !! RateLimit.client request
      = Some {| RateLimit.count := c; RateLimit.resetTime := r |} ->
    9 <= c ->
    Forall (fun t => fst t <= r /\ snd t <= r) times ->
    map is_Next (rate_limited_requests times request m) = repeat false (length times).
Proof.
  induction times as [|[now1 now2] times IH]; intros c r m Hp Hm Hc Ht; [reflexivity|].
  inversion Ht as [|? ? [H1 H2] Hrest]; subst. simpl in H1, H2. simpl.
  rewrite (rate_middleware_auth_step now1 now2 c r request m Hp Hm H1 H2).
  destruct (100 <=? c); simpl.
  - f_equal. apply (IH c r m Hp Hm Hc Hrest).
  - assert (E : (10 <=? c + 1) = true) by (apply Z.leb_le; lia).
    rewrite E. simpl. f_equal.
    apply (IH (c + 1) r _ Hp (lookup_insert_eq _ _ _)); [lia | exact Hrest].
Qed.

Lemma rate_requests_remaining (times : list (Z * Z)) (request : RateLimit.Request) :
  forall (j : nat) (c r : Z) (m : gmap string RateLimit.Entry),
    startsWith (RateLimit.pathname request) "/api/auth/" = true ->
    m !! RateLimit.client request
      = Some {| RateLimit.count := c; RateLimit.resetTime := r |} ->
    c = 10 - 2 * Z.of_nat j ->
    Forall (fun t => fst t <= r /\ snd t <= r) times ->
    map is_Next (rate_limited_requests times request m) =
      (repeat true (Nat.min (length times) j) ++ repeat false (length times - j))%list.
Proof.
  induction times as [|[now1 now2] times IH]; intros j c r m Hp Hm Hc Ht; [reflexivity|].
  destruct j as [|j].
  - rewrite (rate_requests_exhausted _ request c r m Hp Hm) by (assumption || lia).
    rewrite Nat.min_0_r, Nat.sub_0_r. reflexivity.
  - inversion Ht as [|? ? [H1 H2] Hrest]; subst c. simpl in H1, H2. simpl.
    rewrite (rate_middleware_auth_step now1 now2 _ r request m Hp Hm H1 H2).
    assert (E1 : (100 <=? 10 - 2 * Z.of_nat (S j)) = false) by (apply Z.leb_gt; lia).
    assert (E2 : (10 <=? 10 - 2 * Z.of_nat (S j) + 1) = false) by (apply Z.leb_gt; lia).
    rewrite E1, E2. simpl. f_equal.
    apply (IH j _ r _ Hp (lookup_insert_eq _ _ _)); [lia | exact Hrest].
Qed.

(** An auth route is counted twice, on the one counter both limits share:
    of the requests a client makes for a path under /api/auth/ from its
    first one until the window has run out, the first five are let
    through and none of the later ones (not the first ten, as the limit
    of 10 reads). *)
Theorem auth_route_budget_is_five
    (request : RateLimit.Request) (first1 first2 : Z) (later : list (Z * Z))
    (m : gmap string RateLimit.Entry) :
  startsWith (RateLimit.pathname request) "/api/auth/" = true ->
  m !! RateLimit.client request = None ->
  first2 <= first1 + 60000 ->
  Forall (fun t => fst t <= first1 + 60000 /\ snd t <= first1 + 60000) later ->
  let requests := S (length later) in
  map is_Next (rate_limited_requests ((first1, first2) :: later) request m) =
    (repeat true (Nat.min requests 5) ++ repeat false (requests - 5))%list.
Proof.
  intros Hp Hm H2 Ht requests. unfold requests. simpl.
  assert (Hfirst : RateLimit.middleware first1 first2 request m =
            (Returned Next,
             <[RateLimit.client request :=
                 {| RateLimit.count := 2; RateLimit.resetTime := first1 + 60000 |}]> m)).
  { unfold RateLimit.middleware. rewrite Hp, (api_auth_path_shape _ Hp).
    unfold mbind, M_bind, mret, M_ret.
    unfold RateLimit.rateLimit at 1. rewrite Hm. simpl.
    rewrite (rateLimit_in_window first2 _ 10 60000 1 (first1 + 60000) _
               (lookup_insert_eq _ _ _) H2).
    simpl. rewrite insert_insert_eq. reflexivity. }
  rewrite Hfirst. simpl. f_equal.
  apply (rate_requests_remaining later request 4 2 (first1 + 60000) _ Hp
           (lookup_insert_eq _ _ _)); [reflexivity | exact Ht].
Qed.

Lemma auth_route_budget_is_five_witness :
  let request := {| RateLimit.ip := Some "10.0.0.1"; RateLimit.forwarded_for := None;
                    RateLimit.pathname := "/api/auth/callback/credentials" |} in
  map is_Next
    (rate_limited_requests
       [(0, 0); (1, 1); (2, 2); (3, 3); (4, 4); (5, 5); (6, 6)] request ∅)
  = (repeat true (Nat.min 7 5) ++ repeat false (7 - 5))%list.
Proof.
  apply (auth_route_budget_is_five
           {| RateLimit.ip := Some "10.0.0.1"; RateLimit.forwarded_for := None;
              RateLimit.pathname := "/api/auth/callback/credentials" |}
           0 0 [(1, 1); (2, 2); (3, 3); (4, 4); (5, 5); (6, 6)] ∅).
  - reflexivity.
  - reflexivity.
  - lia.
  - repeat constructor; simpl; lia.
Defined.

(** ** A/B testing *)

Lemma to_int32_even (z : Z) : Z.even (ABTest.to_int32 z) = Z.even z.
Proof.
  unfold ABTest.to_int32.
  rewrite Z.even_sub, Z.mod_eq by lia.
  rewrite Z.even_sub, Z.even_mul, Z.even_add.
  change (Z.even (2 ^ 31)) with true. change (Z.even (2 ^ 32)) with true. simpl.
  destruct (Z.even z); reflexivity.
Qed.

Lemma hash_step_even (a code : Z) :
  Z.even (ABTest.hash_step a code) = Z.even (a + code).
Proof.
  unfold ABTest.hash_step.
  rewrite to_int32_even, Z.even_add, Z.even_sub, to_int32_even, Z.even_mul.
  change (Z.even 32) with true. rewrite orb_true_r, Z.even_add.
  destruct (Z.even a), (Z.even code); reflexivity.
Qed.

Lemma hash_fold_even (codes : list Z) (a : Z) :
  Z.even (fold_left ABTest.hash_step codes a) = Z.even (a + fold_right Z.add 0 codes).
Proof.
  revert a. induction codes as [|c codes IH]; intros a; simpl.
  - rewrite Z.add_0_r. reflexivity.
  - rewrite IH, !Z.even_add, hash_step_even, !Z.even_add.
    destruct (Z.even a), (Z.even c), (Z.even (fold_right Z.add 0 codes)); reflexivity.
Qed.

(** The 32-bit hash of [getABTestVariant] only decides by parity: the
    variant is "A" exactly when the character codes of the user id add up
    to an even number, and "B" otherwise; the name of the test plays no
    part. *)
Theorem ab_variant_is_parity_of_codes (userId testName : string) :
  ABTest.getABTestVariant userId testName =
    if Z.even (fold_right Z.add 0 (ABTest.char_codes userId)) then "A" else "B".
Proof.
  unfold ABTest.getABTestVariant, ABTest.hash.
  rewrite Zmod_even.
  replace (Z.even (Z.abs (fold_left ABTest.hash_step (ABTest.char_codes userId) 0)))
    with (Z.even (fold_left ABTest.hash_step (ABTest.char_codes userId) 0))
    by (destruct (fold_left _ _ _); reflexivity).
  rewrite hash_fold_even. simpl.
  destruct (Z.even _); reflexivity.
Qed.

(** A visitor of /dashboard/overview without a user-id cookie, or with an
    empty one, is hashed as "anonymous" and always served variant B, the
    rewritten page. *)
Theorem ab_anonymous_visitors_get_B (cookie : option string) :
  truthy_opt cookie = false ->
  ABTest.middleware "/dashboard/overview" cookie = ABTest.Rewrite "/dashboard/overview-v2".
Proof.
  intros H. unfold ABTest.middleware. rewrite H. reflexivity.
Qed.

Lemma ab_anonymous_visitors_get_B_witness :
  ABTest.middleware "/dashboard/overview" (Some "")
  = ABTest.Rewrite "/dashboard/overview-v2".
Proof.
  apply (ab_anonymous_visitors_get_B (Some "")). reflexivity.
Defined.

(** ** Internationalization *)

Lemma includes_In (l : list string) (s : string) :
  I18n.includes l s = true -> In s l.
Proof.
  unfold I18n.includes. intros H. apply existsb_exists in H.
  destruct H as [x [Hin He]]. apply String.eqb_eq in He. subst. exact Hin.
Qed.

Lemma header_locale_supported (acceptLanguage : option string) (l : string) :
  I18n.getLocaleFromAcceptLanguage acceptLanguage = Some l -> In l I18n.locales.
Proof.
  unfold I18n.getLocaleFromAcceptLanguage.
  destruct (negb (truthy_opt acceptLanguage)); [discriminate|].
  intros H. apply find_some in H. destruct H as [_ H]. apply includes_In. exact H.
Qed.

Lemma chosen_locale_supported (acceptLanguage : option string) :
  In (default I18n.defaultLocale (I18n.getLocaleFromAcceptLanguage acceptLanguage))
     I18n.locales.
Proof.
  destruct (I18n.getLocaleFromAcceptLanguage acceptLanguage) as [l|] eqn:E; simpl.
  - apply (header_locale_supported _ _ E).
  - left. reflexivity.
Qed.

(** The i18n middleware redirects at most once: what it redirects to is
    the path behind one of the four supported locales, which it then
    leaves alone, and [getLocale] reads that locale back from it. *)
Theorem i18n_redirect_settles
    (pathname target : string) (acceptLanguage acceptLanguage' : option string) :
  startsWith pathname "/" = true ->
  I18n.middleware pathname acceptLanguage = Some target ->
  exists locale,
    In locale I18n.locales
    /\ target = "/" ++ locale ++ pathname
    /\ I18n.middleware target acceptLanguage' = None
    /\ I18n.getLocale target acceptLanguage' = Some locale.
Proof.
  intros Hp. unfold I18n.middleware at 1.
  destruct (I18n.pathnameIsMissingLocale pathname); [|discriminate].
  intros H. inversion H. clear H.
  pose proof (chosen_locale_supported acceptLanguage) as Hin.
  set (locale := default I18n.defaultLocale
                   (I18n.getLocaleFromAcceptLanguage acceptLanguage)) in *.
  exists locale. split; [exact Hin|]. split; [reflexivity|].
  unfold startsWith in Hp. prefix_inv Hp.
  unfold I18n.middleware, I18n.getLocale.
  simpl in Hin.
  destruct Hin as [<- | [<- | [<- | [<- | []]]]]; destruct r; split; vm_compute; reflexivity.
Qed.

Lemma i18n_redirect_settles_witness :
  exists locale,
    In locale I18n.locales
    /\ "/fr/dashboard" = "/" ++ locale ++ "/dashboard"
    /\ I18n.middleware "/fr/dashboard" None = None
    /\ I18n.getLocale "/fr/dashboard" None = Some locale.
Proof.
  apply (i18n_redirect_settles "/dashboard" "/fr/dashboard"
           (Some "fr-CH, fr;q=0.9, en;q=0.8") None);
    reflexivity.
Defined.

(** The header is read in the order it is written and its weights are not
    looked at: a supported language listed first is the one chosen,
    whatever follows it and even with the lowest weight. *)
Theorem i18n_first_listed_language_wins (locale rest : string) :
  In locale I18n.locales ->
  I18n.getLocaleFromAcceptLanguage (Some (locale ++ "," ++ rest)) = Some locale
  /\ I18n.getLocaleFromAcceptLanguage (Some (locale ++ ";q=0.1," ++ rest)) = Some locale
  /\ I18n.getLocaleFromAcceptLanguage (Some (locale ++ "-XX," ++ rest)) = Some locale.
Proof.
  intros Hin. simpl in Hin.
  destruct Hin as [<- | [<- | [<- | [<- | []]]]];
    repeat split; vm_compute; reflexivity.
Qed.

Lemma i18n_first_listed_language_wins_witness :
  I18n.getLocaleFromAcceptLanguage (Some ("de" ++ "," ++ "en;q=1.0")) = Some "de"
  /\ I18n.getLocaleFromAcceptLanguage (Some ("de" ++ ";q=0.1," ++ "en;q=1.0")) = Some "de"
  /\ I18n.getLocaleFromAcceptLanguage (Some ("de" ++ "-XX," ++ "en;q=1.0")) = Some "de".
Proof.
  apply (i18n_first_listed_language_wins "de" "en;q=1.0").
  right. right. right. left. reflexivity.
Defined.

(** ** Password rules *)

(** [validatePassword] accepts a password exactly when it keeps all five
    rules (eight characters or more, an uppercase letter, a lowercase
    letter, a digit, a special character), and it lists one message for
    every rule that is broken. *)
Theorem validatePassword_rules (password : string) :
  let v := Password.validatePassword password in
  let broken :=
    [(String.length password <? 8)%nat;
     negb (Password.test Password.is_upper password);
     negb (Password.test Password.is_lower password);
     negb (Password.test Password.is_digit password);
     negb (Password.test Password.is_special password)] in
  Password.isValid v = forallb negb broken
  /\ length (Password.errors v) = length (List.filter (fun b : bool => b) broken)
  /\ (Password.isValid v = true <-> Password.errors v = []).
Proof.
  cbv zeta. unfold Password.validatePassword, Password.push_if.
  destruct (String.length password <? 8)%nat,
           (Password.test Password.is_upper password),
           (Password.test Password.is_lower password),
           (Password.test Password.is_digit password),
           (Password.test Password.is_special password); simpl;
    repeat split; intros; (reflexivity || discriminate).
Qed.
